(** * GovBrief mobile client: the screens' logic and its specification

    A shallow embedding of the four screens of the client
    (ChatScreen, DocumentListScreen, HomeScreen, DocumentUploadScreen):
    JavaScript strings and JSON values as data, the handlers of each screen
    as programs over the screen's React state, and the properties the
    specification states about them. *)

From Stdlib Require Import List String Ascii Bool ZArith NArith Lia DecimalString.
Import ListNotations.

Set Implicit Arguments.
Set Warnings "-register-all".

(** ** JavaScript strings

    A JavaScript string is a sequence of UTF-16 code units.  Literals of the
    source are written [js "..."]: the file holds them in UTF-8, and [js]
    re-encodes them. *)

Module JsString.

Definition jsstring := list N.

Definition utf16_units (cp : N) : list N :=
  (if cp <? 65536 then [cp]
   else [55296 + (cp - 65536) / 1024; 56320 + (cp - 65536) mod 1024])%N.

Fixpoint utf8_points (bs : list N) : list N :=
  match bs with
  | [] => []
  | b0 :: r0 =>
    if (b0 <? 128)%N then b0 :: utf8_points r0
    else match r0 with
    | [] => []
    | b1 :: r1 =>
      if (b0 <? 224)%N
      then ((b0 - 192) * 64 + (b1 - 128))%N :: utf8_points r1
      else match r1 with
      | [] => []
      | b2 :: r2 =>
        if (b0 <? 240)%N
        then ((b0 - 224) * 4096 + (b1 - 128) * 64 + (b2 - 128))%N
             :: utf8_points r2
        else match r2 with
        | [] => []
        | b3 :: r3 =>
          ((b0 - 240) * 262144 + (b1 - 128) * 4096
           + (b2 - 128) * 64 + (b3 - 128))%N :: utf8_points r3
        end
      end
    end
  end.

Definition js (s : string) : jsstring :=
  flat_map utf16_units (utf8_points (map N_of_ascii (list_ascii_of_string s))).

Fixpoint eqb (a b : jsstring) : bool :=
  match a, b with
  | [], [] => true
  | x :: a', y :: b' => (x =? y)%N && eqb a' b'
  | _, _ => false
  end.

(** [switch]: the value is one of the [case] labels of a group. *)
Definition one_of (s : jsstring) (labels : list jsstring) : bool :=
  existsb (eqb s) labels.

(** WhiteSpace and LineTerminator code points of ECMAScript, the ones
    [String.prototype.trim] strips. *)
Definition is_white_space (c : N) : bool :=
  ((9 <=? c) && (c <=? 13) || (c =? 32) || (c =? 160) || (c =? 5760)
   || (8192 <=? c) && (c <=? 8202) || (c =? 8232) || (c =? 8233)
   || (c =? 8239) || (c =? 8287) || (c =? 12288) || (c =? 65279))%N.

Fixpoint trimStart (s : jsstring) : jsstring :=
  match s with
  | c :: r => if is_white_space c then trimStart r else s
  | [] => []
  end.

Definition trimEnd (s : jsstring) : jsstring := rev (trimStart (rev s)).

Definition trim (s : jsstring) : jsstring := trimEnd (trimStart s).

Fixpoint startsWith (s pat : jsstring) : bool :=
  match pat, s with
  | [], _ => true
  | p :: pat', c :: s' => (c =? p)%N && startsWith s' pat'
  | _ :: _, [] => false
  end.

(** [String.prototype.includes]: [pat] occurs in [s] as a substring. *)
Fixpoint includes (s pat : jsstring) : bool :=
  startsWith s pat ||
  match s with
  | [] => false
  | _ :: s' => includes s' pat
  end.

(** [Number.prototype.toString] on an integer. *)
Definition of_Z (n : Z) : jsstring :=
  js (NilZero.string_of_int (Z.to_int n)).

End JsString.
Import JsString.

Arguments js : simpl never.
Arguments of_Z : simpl never.
Arguments trim : simpl never.


(** ** JavaScript values, exceptions and effects *)

Module Js.

(** The values a response body parsed from JSON can hold, and [undefined]
    for what a property read can add.  A number is an integer here: no
    screen computes with a fractional one. *)
Inductive JsVal : Type :=
| JUndefined
| JNull
| JBool (b : bool)
| JNum (n : Z)
| JStr (s : jsstring)
| JArr (items : list JsVal)
| JObj (fields : list (jsstring * JsVal)).

(** What a [catch] clause receives: the fields of an [Error] the screens
    read.  An [AxiosError] carries a [code] and, when the server answered,
    a [response] with its [status]; a [TypeError] has only a [message]. *)
Record JsError : Type := {
  err_code : option jsstring;
  err_response : option Z;
  err_message : jsstring
}.

Inductive TypeErrorKind : Type :=
| ReadOfNullish (prop : jsstring)
| NotAFunction (name : jsstring)
| NotPrimitive.

(** What the host leaves open to the model: the wording of the engine's
    [TypeError] messages, whether StringToNumber of a string is positive,
    and HomeScreen's [formatDate], a function of the clock and the locale. *)
Class Host : Type := {
  type_error_text : TypeErrorKind -> jsstring;
  string_positive : jsstring -> bool;
  format_date : JsVal -> JsVal
}.

(** A host to run the model on examples: one fixed wording per kind of
    [TypeError], no string counted as a positive number, dates shown as
    they came. *)
Definition sample_host : Host := {|
  type_error_text := fun k =>
    match k with
    | ReadOfNullish prop => js "Cannot read property '" ++ prop ++ js "' of null"
    | NotAFunction name => js "undefined is not a function"
    | NotPrimitive => js "Cannot convert object to primitive value"
    end;
  string_positive := fun _ => false;
  format_date := fun v => v
|}.

Definition TypeError {host : Host} (k : TypeErrorKind) : JsError :=
  {| err_code := None; err_response := None;
     err_message := type_error_text k |}.

(** *** Completions and the state of a screen *)

Inductive completion (A : Type) : Type :=
| Normal (a : A)
| Throw (e : JsError).
Arguments Normal {A} a.
Arguments Throw {A} e.

(** A handler runs over the state [S] of its screen; what it has set stays
    set when it throws. *)
Definition eff (S A : Type) : Type := S -> S * completion A.

Class Monad (M : Type -> Type) : Type := {
  ret : forall A, A -> M A;
  bind : forall A B, M A -> (A -> M B) -> M B
}.
Arguments ret {M _ A} _.
Arguments bind {M _ A B} _ _.

#[export] Instance completion_monad : Monad completion := {|
  ret := fun A a => Normal a;
  bind := fun A B c k =>
    match c with
    | Normal a => k a
    | Throw e => Throw e
    end
|}.

#[export] Instance eff_monad (S : Type) : Monad (eff S) := {|
  ret := fun A a s => (s, Normal a);
  bind := fun A B c k s =>
    match c s with
    | (s', Normal a) => k a s'
    | (s', Throw e) => (s', Throw e)
    end
|}.

Declare Scope js_scope.
Delimit Scope js_scope with js.
Notation "x <- c ;; k" := (bind c (fun x => k))
  (at level 61, c at next level, right associativity) : js_scope.
Notation "c ;; k" := (bind c (fun _ => k))
  (at level 61, right associativity) : js_scope.
Open Scope js_scope.

Definition lift {S A : Type} (c : completion A) : eff S A :=
  fun s => (s, c).

Definition read {S : Type} : eff S S := fun s => (s, Normal s).

Definition update {S : Type} (f : S -> S) : eff S unit :=
  fun s => (f s, Normal tt).

Definition try_catch {S A : Type}
    (body : eff S A) (handler : JsError -> eff S A) : eff S A :=
  fun s =>
    match body s with
    | (s', Normal a) => (s', Normal a)
    | (s', Throw e) => handler e s'
    end.

Definition try_finally {S A : Type}
    (body : eff S A) (finalizer : eff S unit) : eff S A :=
  fun s =>
    let (s', r) := body s in
    match finalizer s' with
    | (s'', Normal _) => (s'', r)
    | (s'', Throw e) => (s'', Throw e)
    end.

Fixpoint mapM {A B : Type} (f : A -> completion B) (l : list A)
  : completion (list B) :=
  match l with
  | [] => Normal []
  | x :: r => y <- f x ;; ys <- mapM f r ;; ret (y :: ys)
  end.

Fixpoint filterM {A : Type} (f : A -> completion bool) (l : list A)
  : completion (list A) :=
  match l with
  | [] => Normal []
  | x :: r =>
    keep <- f x ;; ys <- filterM f r ;;
    ret (if keep : bool then x :: ys else ys)
  end.

(** *** Operations on values *)

Definition truthy (v : JsVal) : bool :=
  match v with
  | JUndefined | JNull => false
  | JBool b => b
  | JNum n => negb (n =? 0)%Z
  | JStr s => negb (JsString.eqb s [])
  | JArr _ | JObj _ => true
  end.

(** A string, or nothing: what a field declared [string] may hold. *)
Definition string_or_absent (v : JsVal) : bool :=
  match v with
  | JStr _ | JUndefined | JNull => true
  | _ => false
  end.

(** [v === s] for a string [s]. *)
Definition strict_eq_str (v : JsVal) (s : jsstring) : bool :=
  match v with
  | JStr t => JsString.eqb t s
  | _ => false
  end.

Fixpoint lookup (name : jsstring) (fields : list (jsstring * JsVal)) : JsVal :=
  match fields with
  | [] => JUndefined
  | (k, v) :: rest => if JsString.eqb k name then v else lookup name rest
  end.

Definition has_key (name : jsstring) (fields : list (jsstring * JsVal)) : bool :=
  existsb (fun kv => JsString.eqb (fst kv) name) fields.

Section WithHost.
Context {host : Host}.

(** [v.name], for the property names the screens read: data properties of
    the body, and [length]. *)
Definition get_prop (v : JsVal) (name : jsstring) : completion JsVal :=
  match v with
  | JUndefined | JNull => Throw (TypeError (ReadOfNullish name))
  | JObj fields => Normal (lookup name fields)
  | JArr items =>
    Normal (if JsString.eqb name (js "length")
            then JNum (Z.of_nat (List.length items)) else JUndefined)
  | JStr s =>
    Normal (if JsString.eqb name (js "length")
            then JNum (Z.of_nat (List.length s)) else JUndefined)
  | JBool _ | JNum _ => Normal JUndefined
  end.

(** [v[i]] *)
Definition get_index (v : JsVal) (i : nat) : completion JsVal :=
  match v with
  | JUndefined | JNull =>
    Throw (TypeError (ReadOfNullish (of_Z (Z.of_nat i))))
  | JObj fields => Normal (lookup (of_Z (Z.of_nat i)) fields)
  | JArr items => Normal (nth i items JUndefined)
  | JStr s =>
    Normal (match nth_error s i with
            | Some c => JStr [c]
            | None => JUndefined
            end)
  | JBool _ | JNum _ => Normal JUndefined
  end.

(** ToString, as a template literal applies it. *)
Fixpoint ToString (v : JsVal) : completion jsstring :=
  match v with
  | JUndefined => Normal (js "undefined")
  | JNull => Normal (js "null")
  | JBool b => Normal (if b then js "true" else js "false")
  | JNum n => Normal (of_Z n)
  | JStr s => Normal s
  | JArr items =>
    (fix join (l : list JsVal) : completion jsstring :=
       match l with
       | [] => Normal []
       | x :: r =>
         sx <- match x with
               | JUndefined | JNull => Normal []
               | _ => ToString x
               end ;;
         match r with
         | [] => Normal sx
         | _ :: _ => sr <- join r ;; ret (sx ++ js "," ++ sr)
         end
       end) items
  | JObj fields =>
    if has_key (js "toString") fields
    then Throw (TypeError NotPrimitive)
    else Normal (js "[object Object]")
  end.

(** [v > 0] *)
Definition gt_zero (v : JsVal) : completion bool :=
  match v with
  | JUndefined | JNull => Normal false
  | JBool b => Normal b
  | JNum n => Normal (0 <? n)%Z
  | JStr s => Normal (string_positive s)
  | JArr _ | JObj _ => s <- ToString v ;; ret (string_positive s)
  end.

(** [v.filter(p)]: only an array has the method. *)
Definition array_filter (v : JsVal) (p : JsVal -> completion bool)
  : completion (list JsVal) :=
  match v with
  | JArr items => filterM p items
  | _ => Throw (TypeError (NotAFunction (js "filter")))
  end.

(** [v.includes(s)] for a string [s]: substring search in a string,
    membership in an array; no other value has the method. *)
Definition value_includes (v : JsVal) (s : jsstring) : completion bool :=
  match v with
  | JStr t => Normal (includes t s)
  | JArr items => Normal (existsb (fun x => strict_eq_str x s) items)
  | _ => Throw (TypeError (NotAFunction (js "includes")))
  end.

End WithHost.

(** *** HTTP through axios *)

Inductive Method : Type := GET | POST.

Record FilePart : Type := {
  part_uri : jsstring;
  part_type : jsstring;
  part_name : jsstring
}.

Inductive Body : Type :=
| NoBody
| JsonBody (v : JsVal)
| FormBody (parts : list (jsstring * FilePart)).

Record Request : Type := {
  req_method : Method;
  req_url : jsstring;
  req_body : Body;
  req_timeout : option Z;
  req_headers : list (jsstring * jsstring)
}.

(** How an awaited request ends: with the [data] of the response, or with
    the error axios rejects with. *)
Inductive Outcome : Type :=
| Resolved (data : JsVal)
| Rejected (error : JsError).

Definition await (o : Outcome) : completion JsVal :=
  match o with
  | Resolved data => Normal data
  | Rejected error => Throw error
  end.

(** [try { ... } catch (error) { ... }] around code without state *)
Definition catching {A : Type}
    (body : completion A) (handler : JsError -> completion A) : completion A :=
  match body with
  | Normal a => Normal a
  | Throw error => handler error
  end.

Definition BACKEND_URL : jsstring :=
  js "https://govbrief-production.up.railway.app".

(** [String.prototype.toLowerCase]: the case mapping of Unicode is left to
    the host; it maps the empty string to itself. *)
Class CaseMapping : Type := {
  toLowerCase : jsstring -> jsstring;
  toLowerCase_empty : toLowerCase [] = []
}.

(** A case mapping to run the model on examples: the one of ASCII. *)
Definition sample_casing : CaseMapping := {|
  toLowerCase :=
    map (fun c => if ((65 <=? c) && (c <=? 90))%N then (c + 32)%N else c);
  toLowerCase_empty := eq_refl
|}.

(** A dialog of [Alert.alert]: its title, its message, and whether its
    button reloads the list. *)
Record Alert : Type := {
  alert_title : jsstring;
  alert_message : jsstring;
  alert_reloads : bool
}.

End Js.
Import Js.

(** ** ChatScreen.tsx *)

Module ChatScreen.

Record ChatMessage : Type := {
  id : jsstring;
  text : JsVal;   (* declared [string]; holds what the backend sent *)
  isUser : bool;
  timestamp : Z
}.

Record State : Type := {
  isSearchMode : bool;
  searchText : jsstring;
  foundIds : list jsstring;
  currentMatchIndex : Z;
  message : jsstring;
  messages : list ChatMessage;
  isTyping : bool;
  currentDocumentId : JsVal
}.

Definition initial (now : Z) : State := {|
  isSearchMode := false;
  searchText := [];
  foundIds := [];
  currentMatchIndex := 0;
  message := [];
  messages :=
    [ {| id := js "1";
         text := JStr (js "안녕하세요! 업로드한 문서에 대해 궁금한 점을 물어보세요 😊" ++ [10; 10]%N
                       ++ js "📄 분석된 문서가 있다면 해당 문서의 내용을 바탕으로 답변드릴게요!");
         isUser := false;
         timestamp := now |} ];
  isTyping := false;
  currentDocumentId := JNull
|}.

(** [foundIds.length] *)
Definition match_count (s : State) : Z := Z.of_nat (List.length (foundIds s)).

(** What the search bar relies on when it shows [foundIds[currentMatchIndex]]:
    nothing found, or an index that points into the list of found ids. *)
Definition index_in_range (s : State) : Prop :=
  foundIds s = [] \/ (0 <= currentMatchIndex s < match_count s)%Z.

(** Two states with the same found ids and the same index. *)
Definition same_search (s s' : State) : Prop :=
  foundIds s' = foundIds s /\ currentMatchIndex s' = currentMatchIndex s.

Definition setIsSearchMode (v : bool) : eff State unit :=
  update (fun s =>
    {| isSearchMode := v; searchText := searchText s; foundIds := foundIds s;
       currentMatchIndex := currentMatchIndex s; message := message s;
       messages := messages s; isTyping := isTyping s;
       currentDocumentId := currentDocumentId s |}).

Definition setSearchText (v : jsstring) : eff State unit :=
  update (fun s =>
    {| isSearchMode := isSearchMode s; searchText := v; foundIds := foundIds s;
       currentMatchIndex := currentMatchIndex s; message := message s;
       messages := messages s; isTyping := isTyping s;
       currentDocumentId := currentDocumentId s |}).

Definition setFoundIds (v : list jsstring) : eff State unit :=
  update (fun s =>
    {| isSearchMode := isSearchMode s; searchText := searchText s; foundIds := v;
       currentMatchIndex := currentMatchIndex s; message := message s;
       messages := messages s; isTyping := isTyping s;
       currentDocumentId := currentDocumentId s |}).

Definition setCurrentMatchIndex (f : Z -> Z) : eff State unit :=
  update (fun s =>
    {| isSearchMode := isSearchMode s; searchText := searchText s;
       foundIds := foundIds s;
       currentMatchIndex := f (currentMatchIndex s); message := message s;
       messages := messages s; isTyping := isTyping s;
       currentDocumentId := currentDocumentId s |}).

Definition setMessage (v : jsstring) : eff State unit :=
  update (fun s =>
    {| isSearchMode := isSearchMode s; searchText := searchText s;
       foundIds := foundIds s; currentMatchIndex := currentMatchIndex s;
       message := v; messages := messages s; isTyping := isTyping s;
       currentDocumentId := currentDocumentId s |}).

Definition setMessages (f : list ChatMessage -> list ChatMessage)
  : eff State unit :=
  update (fun s =>
    {| isSearchMode := isSearchMode s; searchText := searchText s;
       foundIds := foundIds s; currentMatchIndex := currentMatchIndex s;
       message := message s; messages := f (messages s);
       isTyping := isTyping s; currentDocumentId := currentDocumentId s |}).

Definition setIsTyping (v : bool) : eff State unit :=
  update (fun s =>
    {| isSearchMode := isSearchMode s; searchText := searchText s;
       foundIds := foundIds s; currentMatchIndex := currentMatchIndex s;
       message := message s; messages := messages s; isTyping := v;
       currentDocumentId := currentDocumentId s |}).

Definition setCurrentDocumentId (v : JsVal) : eff State unit :=
  update (fun s =>
    {| isSearchMode := isSearchMode s; searchText := searchText s;
       foundIds := foundIds s; currentMatchIndex := currentMatchIndex s;
       message := message s; messages := messages s; isTyping := isTyping s;
       currentDocumentId := v |}).

Section WithHost.
Context {host : Host}.

(** [axios.get(`${BACKEND_URL}/api/v1/documents/`)] *)
Definition fetchLatestDocument_request : Request := {|
  req_method := GET;
  req_url := BACKEND_URL ++ js "/api/v1/documents/";
  req_body := NoBody;
  req_timeout := None;
  req_headers := []
|}.

(** The effect run on mount, from the point where the request ends in [o];
    [now_id] and [now_ts] are the two readings of [Date.now()]. *)
Definition fetchLatestDocument (o : Outcome) (now_id now_ts : Z)
  : eff State unit :=
  try_catch
    (data <- lift (await o) ;;
     d <- lift (get_prop data (js "documents")) ;;
     let docs := if truthy d then d else JArr [] in
     len <- lift (get_prop docs (js "length")) ;;
     nonempty <- lift (gt_zero len) ;;
     if nonempty : bool then
       latestDoc <- lift (get_index docs 0) ;;
       document_id <- lift (get_prop latestDoc (js "document_id")) ;;
       setCurrentDocumentId document_id ;;
       filename <- lift (get_prop latestDoc (js "filename")) ;;
       name <- lift (ToString filename) ;;
       let systemMessage :=
         {| id := of_Z now_id ++ js "_system";
            text := JStr (js "📄 " ++ [34]%N ++ name ++ [34]%N
                          ++ js " 문서가 자동으로 선택되었습니다. 이제 이 문서에 대해 질문할 수 있어요!");
            isUser := false;
            timestamp := now_ts |} in
       setMessages (fun prev => prev ++ [systemMessage])
     else ret tt)
    (fun error => ret tt).

(** The search effect, run when [searchText] or [messages] changes. *)
Definition searchEffect : eff State unit :=
  s <- read ;;
  if JsString.eqb (trim (searchText s)) [] then
    setFoundIds []
  else
    found <- lift (filterM (fun msg => value_includes (text msg) (searchText s))
                           (messages s)) ;;
    let ids := map id found in
    setFoundIds ids ;;
    setCurrentMatchIndex (fun _ => 0%Z).

Definition handlePrevMatch : eff State unit :=
  s <- read ;;
  let n := Z.of_nat (List.length (foundIds s)) in
  if (n =? 0)%Z then ret tt
  else setCurrentMatchIndex (fun prev => Z.rem (prev - 1 + n) n).

Definition handleNextMatch : eff State unit :=
  s <- read ;;
  let n := Z.of_nat (List.length (foundIds s)) in
  if (n =? 0)%Z then ret tt
  else setCurrentMatchIndex (fun prev => Z.rem (prev + 1) n).

Definition closeSearch : eff State unit :=
  setIsSearchMode false ;;
  setSearchText [] ;;
  setFoundIds [].

(** [axios.post(`${BACKEND_URL}/api/v1/chat`, {...}, {...})] *)
Definition sendMessageToBackend_request
    (document_id : JsVal) (userMessage : jsstring) : Request := {|
  req_method := POST;
  req_url := BACKEND_URL ++ js "/api/v1/chat";
  req_body :=
    JsonBody (JObj [ (js "question", JStr userMessage);
                     (js "document_id", document_id);
                     (js "max_tokens", JNum 1000) ]);
  req_timeout := Some 30000%Z;
  req_headers := [ (js "Content-Type", js "application/json") ]
|}.

Definition NO_ANSWER : jsstring := js "AI 응답을 받지 못했습니다.".
Definition TIMEOUT_MESSAGE : jsstring :=
  js "⏰ 응답 시간이 초과되었습니다. 다시 시도해주세요.".
Definition NOT_FOUND_MESSAGE : jsstring :=
  js "📄 먼저 문서를 업로드하고 분석해주세요. 그래야 해당 문서에 대해 질문할 수 있어요!".
Definition SERVER_ERROR_MESSAGE : jsstring :=
  js "🔧 서버에 일시적인 문제가 발생했습니다. 잠시 후 다시 시도해주세요.".
Definition CONNECTION_ERROR (message : jsstring) : jsstring :=
  js "❌ 연결 오류: " ++ message.

Definition option_is {A : Type} (eq : A -> A -> bool) (o : option A) (a : A)
  : bool :=
  match o with
  | Some x => eq x a
  | None => false
  end.

(** [sendMessageToBackend], from the point where the request ends in [o]. *)
Definition sendMessageToBackend (o : Outcome) : completion JsVal :=
  catching
    (data <- await o ;;
     answer <- get_prop data (js "answer") ;;
     if truthy answer then ret answer
     else
       response <- get_prop data (js "response") ;;
       if truthy response then ret response
       else ret (JStr NO_ANSWER))
    (fun error =>
       if option_is JsString.eqb (err_code error) (js "ECONNABORTED") then
         ret (JStr TIMEOUT_MESSAGE)
       else if option_is Z.eqb (err_response error) 404%Z then
         ret (JStr NOT_FOUND_MESSAGE)
       else if option_is Z.eqb (err_response error) 500%Z then
         ret (JStr SERVER_ERROR_MESSAGE)
       else
         ret (JStr (CONNECTION_ERROR (err_message error)))).

(** [sendMessage] up to its [await]: [None] when it returns at the guard,
    otherwise the request it has issued. *)
Definition sendMessage_begin (textToSend : jsstring) (now_id now_ts : Z)
  : eff State (option Request) :=
  if negb (truthy (JStr (trim textToSend))) then ret None
  else
    s <- read ;;
    let userMessage :=
      {| id := of_Z now_id; text := JStr (trim textToSend);
         isUser := true; timestamp := now_ts |} in
    setMessages (fun prev => prev ++ [userMessage]) ;;
    setMessage [] ;;
    setIsTyping true ;;
    ret (Some (sendMessageToBackend_request (currentDocumentId s)
                                            (trim textToSend))).

Definition APOLOGY : jsstring :=
  js "죄송해요, 일시적인 오류가 발생했습니다. 잠시 후 다시 시도해주세요. 🤖".

(** [sendMessage] after its [await], when the request has ended in [o]. *)
Definition sendMessage_resume (o : Outcome) (now_id now_ts : Z)
  : eff State unit :=
  try_finally
    (try_catch
       (aiResponse <- lift (sendMessageToBackend o) ;;
        let aiMessage :=
          {| id := of_Z (now_id + 1); text := aiResponse;
             isUser := false; timestamp := now_ts |} in
        setMessages (fun prev => prev ++ [aiMessage]))
       (fun error =>
        let errorMessage :=
          {| id := of_Z (now_id + 1); text := JStr APOLOGY;
             isUser := false; timestamp := now_ts |} in
        setMessages (fun prev => prev ++ [errorMessage])))
    (setIsTyping false).

(** [sendMessage] with nothing else happening while it waits. *)
Definition sendMessage (textToSend : jsstring) (now1 now2 : Z)
    (o : Outcome) (now3 now4 : Z) : eff State unit :=
  issued <- sendMessage_begin textToSend now1 now2 ;;
  match issued with
  | None => ret tt
  | Some _ => sendMessage_resume o now3 now4
  end.


(** [selectDocument] *)
Definition selectDocument (documentId filename : jsstring) (now_id now_ts : Z)
  : eff State unit :=
  setCurrentDocumentId (JStr documentId) ;;
  let systemMessage :=
    {| id := of_Z now_id;
       text := JStr (js "📄 " ++ [34]%N ++ filename ++ [34]%N
                     ++ js " 문서가 선택되었습니다. 이제 이 문서에 대해 질문할 수 있어요!");
       isUser := false;
       timestamp := now_ts |} in
  setMessages (fun prev => prev ++ [systemMessage]).

(** *** What the screen renders from its state *)


(** [foundIds[currentMatchIndex]], [None] for [undefined] *)
Definition currentMatch (s : State) : option jsstring :=
  if (0 <=? currentMatchIndex s)%Z
  then nth_error (foundIds s) (Z.to_nat (currentMatchIndex s))
  else None.

(** [foundIds.includes(msg.id)] *)
Definition isMatch (s : State) (msg : ChatMessage) : bool :=
  existsb (fun found => JsString.eqb found (id msg)) (foundIds s).

(** [foundIds[currentMatchIndex] === msg.id] *)
Definition isCurrentMatch (s : State) (msg : ChatMessage) : bool :=
  option_is JsString.eqb (currentMatch s) (id msg).


(** [String.prototype.padStart(2, '0')] *)
Definition padStart2 (s : jsstring) : jsstring :=
  repeat 48%N (2 - List.length s) ++ s.

(** [formatTime], from the hours and minutes the [Date] of the timestamp
    gives in local time. *)
Definition formatTime (hours minutes : Z) : jsstring :=
  padStart2 (of_Z hours) ++ js ":" ++ padStart2 (of_Z minutes).

(** *** The screen as a transition system

    One step is one event handled to its end: the effect run on mount, an
    edit of a text field, a press on a button of the search bar, a run of
    the search effect, and the two halves of [sendMessage]. *)
Inductive step : State -> State -> Prop :=
| step_fetchLatestDocument o now_id now_ts s :
    step s (fst (fetchLatestDocument o now_id now_ts s))
| step_openSearch s :
    step s (fst (setIsSearchMode true s))
| step_searchInput t s :
    step s (fst (setSearchText t s))
| step_searchEffect s s' :
    searchEffect s = (s', Normal tt) -> step s s'
| step_handlePrevMatch s :
    step s (fst (handlePrevMatch s))
| step_handleNextMatch s :
    step s (fst (handleNextMatch s))
| step_closeSearch s :
    step s (fst (closeSearch s))
| step_messageInput t s :
    step s (fst (setMessage t s))
| step_sendMessage_begin textToSend now_id now_ts s :
    step s (fst (sendMessage_begin textToSend now_id now_ts s))
| step_sendMessage_resume o now_id now_ts s :
    step s (fst (sendMessage_resume o now_id now_ts s)).

Inductive reachable : State -> Prop :=
| reachable_initial now : reachable (initial now)
| reachable_step s s' : reachable s -> step s s' -> reachable s'.

End WithHost.

End ChatScreen.

(** ** DocumentListScreen.tsx *)

Module DocumentListScreen.

Record State : Type := {
  searchText : jsstring;
  selectedFilter : jsstring;
  documents : JsVal;   (* declared [Document[]]; holds what the backend sent *)
  loading : bool;
  refreshing : bool
}.

Definition initial : State := {|
  searchText := [];
  selectedFilter := js "전체";
  documents := JArr [];
  loading := true;
  refreshing := false
|}.

Definition setDocuments (v : JsVal) : eff State unit :=
  update (fun s =>
    {| searchText := searchText s; selectedFilter := selectedFilter s;
       documents := v; loading := loading s; refreshing := refreshing s |}).

Definition setLoading (v : bool) : eff State unit :=
  update (fun s =>
    {| searchText := searchText s; selectedFilter := selectedFilter s;
       documents := documents s; loading := v; refreshing := refreshing s |}).

Definition setRefreshing (v : bool) : eff State unit :=
  update (fun s =>
    {| searchText := searchText s; selectedFilter := selectedFilter s;
       documents := documents s; loading := loading s; refreshing := v |}).

Section WithHost.
Context {host : Host}.

Definition fetchDocuments_request : Request := {|
  req_method := GET;
  req_url := BACKEND_URL ++ js "/api/v1/documents/";
  req_body := NoBody;
  req_timeout := Some 10000%Z;
  req_headers := []
|}.

(** [response.data.documents || response.data || []] *)
Definition listedDocuments (data : JsVal) : completion JsVal :=
  d <- get_prop data (js "documents") ;;
  if truthy d then ret d
  else if truthy data then ret data
  else ret (JArr []).

(** [fetchDocuments], from the point where the request ends in [o]. *)
Definition fetchDocuments (o : Outcome) : eff State unit :=
  try_finally
    (try_catch
       (data <- lift (await o) ;;
        docs <- lift (listedDocuments data) ;;
        setDocuments docs)
       (fun error => ret tt))
    (setLoading false ;;
     setRefreshing false).

Definition onRefresh (o : Outcome) : eff State unit :=
  setRefreshing true ;;
  fetchDocuments o.

(** The request of [analyzeDocument], issued when the dialog is confirmed. *)
Definition analyzeDocument_request (documentId : JsVal) : Request := {|
  req_method := POST;
  req_url := BACKEND_URL ++ js "/api/v1/analyze";
  req_body := JsonBody (JObj [ (js "document_id", documentId) ]);
  req_timeout := Some 30000%Z;
  req_headers := []
|}.

End WithHost.

Definition filterCategories : list jsstring :=
  [ js "전체"; js "업로드 완료"; js "분석 중"; js "분석 완료" ].

Definition getStatusText (status : jsstring) : jsstring :=
  if one_of status [ js "completed"; js "analyzed"; js "분석완료" ] then
    js "분석 완료"
  else if one_of status [ js "analyzing"; js "reanalyzing" ] then
    js "분석 중"
  else if one_of status [ js "uploaded" ] then
    js "업로드 완료"
  else
    js "업로드 완료".

Definition getStatusColor (status : jsstring) : jsstring :=
  if one_of status [ js "분석완료"; js "분석 완료"; js "completed"; js "analyzed" ] then
    js "#4CAF50"
  else if one_of status [ js "분석중"; js "분석 중"; js "analyzing"; js "reanalyzing" ] then
    js "#FF9800"
  else if one_of status [ js "업로드완료"; js "업로드 완료"; js "uploaded" ] then
    js "#2196F3"
  else
    js "#666".

Definition getStatusIcon (status : jsstring) : jsstring :=
  if one_of status [ js "분석완료"; js "completed"; js "analyzed" ] then
    js "✅"
  else if one_of status [ js "분석중"; js "analyzing"; js "reanalyzing" ] then
    js "🔄"
  else
    js "📄".

(** The colour of the status badge of a card:
    [getStatusColor(getStatusText(doc.status))]. *)
Definition statusBadge (status : jsstring) : jsstring :=
  getStatusColor (getStatusText status).

(** *** What the screen renders from its state *)

Definition setSelectedFilter (v : jsstring) : eff State unit :=
  update (fun s =>
    {| searchText := searchText s; selectedFilter := v;
       documents := documents s; loading := loading s;
       refreshing := refreshing s |}).

Definition setSearchText (v : jsstring) : eff State unit :=
  update (fun s =>
    {| searchText := v; selectedFilter := selectedFilter s;
       documents := documents s; loading := loading s;
       refreshing := refreshing s |}).

(** [getStatusText(doc.status)], [getStatusIcon(doc.status)] and the badge
    of a card, [doc.status] being any value of the body: a [switch] compares
    with [===], so only a string can meet a [case]. *)
Definition statusText (status : JsVal) : jsstring :=
  match status with
  | JStr s => getStatusText s
  | _ => js "업로드 완료"
  end.

Definition statusIcon (status : JsVal) : jsstring :=
  match status with
  | JStr s => getStatusIcon s
  | _ => js "📄"
  end.

Definition cardBadge (status : JsVal) : jsstring :=
  getStatusColor (statusText status).

(** The condition under which a card shows its analyze button:
    [doc.status === 'uploaded' || doc.status === '업로드완료'
     || doc.status === '업로드 완료'] *)
Definition showsAnalyzeButton (status : JsVal) : bool :=
  strict_eq_str status (js "uploaded")
  || strict_eq_str status (js "업로드완료")
  || strict_eq_str status (js "업로드 완료").

(** What a press on the header of a card does. *)
Inductive CardAction : Type :=
| StartAnalysis     (* analyzeDocument(doc.document_id, doc.filename) *)
| AlreadyAnalyzed   (* Alert.alert('알림', '이미 분석이 완료된 문서입니다.') *)
| NoAction.

Definition cardPress (status : JsVal) : CardAction :=
  if strict_eq_str status (js "uploaded")
     || strict_eq_str status (js "업로드완료")
     || strict_eq_str status (js "업로드 완료")
  then StartAnalysis
  else if strict_eq_str status (js "analyzed")
          || strict_eq_str status (js "completed")
  then AlreadyAnalyzed
  else NoAction.

Section Rendering.
Context {host : Host} {casing : CaseMapping}.

(** [doc.filename?.toLowerCase().includes(searchText.toLowerCase()) ?? false] *)
Definition matchesSearch (searchText : jsstring) (doc : JsVal)
  : completion bool :=
  filename <- get_prop doc (js "filename") ;;
  match filename with
  | JUndefined | JNull => ret false
  | JStr name => ret (includes (toLowerCase name) (toLowerCase searchText))
  | _ => Throw (TypeError (NotAFunction (js "toLowerCase")))
  end.

(** The callback of [getFilteredDocuments]. *)
Definition keepsDocument (s : State) (doc : JsVal) : completion bool :=
  matches_search <- matchesSearch (searchText s) doc ;;
  matches_filter <-
    (if negb (JsString.eqb (selectedFilter s) (js "전체")) then
       status <- get_prop doc (js "status") ;;
       ret (JsString.eqb (statusText status) (selectedFilter s))
     else ret true) ;;
  ret ((matches_search : bool) && (matches_filter : bool)).

Definition getFilteredDocuments (s : State) : completion (list JsVal) :=
  array_filter (documents s) (keepsDocument s).

(** [documents.length === 0] *)
Definition noDocuments (s : State) : completion bool :=
  len <- get_prop (documents s) (js "length") ;;
  ret (match len with
       | JNum 0 => true
       | _ => false
       end).

(** The condition of the loading screen:
    [loading && !refreshing && documents.length === 0] *)
Definition showsLoading (s : State) : completion bool :=
  if loading s then
    if negb (refreshing s) then noDocuments s else ret false
  else ret false.

(** [analyzeDocument] once the dialog is confirmed and the request has
    ended in [o]: the dialog it shows then. *)
Definition analyzeDocument_confirmed (o : Outcome) : completion Alert :=
  catching
    (data <- await o ;;
     summary <- get_prop data (js "summary") ;;
     shown <- ToString (if truthy summary then summary
                        else JStr (js "분석 결과를 확인하세요.")) ;;
     ret {| alert_title := js "분석 완료!";
            alert_message := js "분석이 완료되었습니다:" ++ [10]%N ++ shown;
            alert_reloads := true |})
    (fun error =>
     ret {| alert_title := js "분석 실패";
            alert_message := js "분석 중 오류가 발생했습니다: "
                             ++ err_message error;
            alert_reloads := false |}).

End Rendering.

End DocumentListScreen.

(** ** HomeScreen.tsx *)

Module HomeScreen.

Inductive NotificationType : Type := complete | analyzing | info.

Record NotificationItem : Type := {
  id : jsstring;
  type : NotificationType;
  title : jsstring;
  message : jsstring;
  date : JsVal;
  read : bool
}.

Record State : Type := {
  documents : JsVal;   (* declared [Document[]]; holds what the backend sent *)
  loading : bool;
  refreshing : bool;
  notifications : list NotificationItem;
  isNotiModalVisible : bool;
  showMainNotification : bool
}.

Definition initial : State := {|
  documents := JArr [];
  loading := true;
  refreshing := false;
  notifications :=
    [ {| id := js "welcome";
         type := info;
         title := js "👋 환영합니다";
         message := js "AI LIFE에 오신 것을 환영합니다! 문서를 업로드하고 AI 분석을 받아보세요.";
         date := JStr (js "지금");
         read := false |} ];
  isNotiModalVisible := false;
  showMainNotification := true
|}.

Definition setDocuments (v : JsVal) : eff State unit :=
  update (fun s =>
    {| documents := v; loading := loading s; refreshing := refreshing s;
       notifications := notifications s;
       isNotiModalVisible := isNotiModalVisible s;
       showMainNotification := showMainNotification s |}).

Definition setLoading (v : bool) : eff State unit :=
  update (fun s =>
    {| documents := documents s; loading := v; refreshing := refreshing s;
       notifications := notifications s;
       isNotiModalVisible := isNotiModalVisible s;
       showMainNotification := showMainNotification s |}).

Definition setRefreshing (v : bool) : eff State unit :=
  update (fun s =>
    {| documents := documents s; loading := loading s; refreshing := v;
       notifications := notifications s;
       isNotiModalVisible := isNotiModalVisible s;
       showMainNotification := showMainNotification s |}).

Definition setNotifications
    (f : list NotificationItem -> list NotificationItem) : eff State unit :=
  update (fun s =>
    {| documents := documents s; loading := loading s;
       refreshing := refreshing s;
       notifications := f (notifications s);
       isNotiModalVisible := isNotiModalVisible s;
       showMainNotification := showMainNotification s |}).

Definition is_info (n : NotificationItem) : bool :=
  match type n with
  | info => true
  | _ => false
  end.

Section WithHost.
Context {host : Host}.

Definition fetchDocuments_request : Request := {|
  req_method := GET;
  req_url := BACKEND_URL ++ js "/api/v1/documents/";
  req_body := NoBody;
  req_timeout := Some 10000%Z;
  req_headers := []
|}.

(** [response.data.documents || []] *)
Definition listedDocuments (data : JsVal) : completion JsVal :=
  d <- get_prop data (js "documents") ;;
  if truthy d then ret d
  else ret (JArr []).

Definition isCompleted (doc : JsVal) : completion bool :=
  status <- get_prop doc (js "status") ;;
  if strict_eq_str status (js "completed") then ret true
  else
    status' <- get_prop doc (js "status") ;;
    ret (strict_eq_str status' (js "분석완료")).

Definition completedNotification (doc : JsVal) : completion NotificationItem :=
  document_id <- get_prop doc (js "document_id") ;;
  id_text <- ToString document_id ;;
  filename <- get_prop doc (js "filename") ;;
  name <- ToString filename ;;
  created_at <- get_prop doc (js "created_at") ;;
  ret {| id := js "complete_" ++ id_text;
         type := complete;
         title := js "✅ 분석 완료";
         message := name ++ js " 분석이 끝났습니다.";
         date := format_date created_at;
         read := false |}.

(** [fetchDocuments], from the point where the request ends in [o]. *)
Definition fetchDocuments (o : Outcome) : eff State unit :=
  try_finally
    (try_catch
       (data <- lift (await o) ;;
        docs <- lift (listedDocuments data) ;;
        setDocuments docs ;;
        len <- lift (get_prop docs (js "length")) ;;
        nonempty <- lift (gt_zero len) ;;
        if nonempty : bool then
          completedDocs <- lift (array_filter docs isCompleted) ;;
          if (0 <? List.length completedDocs)%nat then
            newNotifications <-
              lift (mapM completedNotification (firstn 3 completedDocs)) ;;
            setNotifications (fun prev =>
              newNotifications ++ filter is_info prev)
          else ret tt
        else ret tt)
       (fun error => ret tt))
    (setLoading false ;;
     setRefreshing false).

Definition onRefresh (o : Outcome) : eff State unit :=
  setRefreshing true ;;
  fetchDocuments o.

(** [documents.length > 0 ? documents[0] : null] *)
Definition latestDoc (s : State) : completion JsVal :=
  len <- get_prop (documents s) (js "length") ;;
  nonempty <- gt_zero len ;;
  if nonempty : bool then get_index (documents s) 0
  else ret JNull.

End WithHost.

Definition getStatusColor (status : jsstring) : jsstring :=
  if one_of status [ js "분석완료"; js "completed"; js "analyzed" ] then
    js "#4CAF50"
  else if one_of status [ js "분석중"; js "analyzing" ] then
    js "#FF9800"
  else if one_of status [ js "업로드완료"; js "uploaded" ] then
    js "#2196F3"
  else
    js "#999".

Definition getStatusText (status : jsstring) : jsstring :=
  if one_of status [ js "completed" ] then js "분석완료"
  else if one_of status [ js "analyzing" ] then js "분석중"
  else if one_of status [ js "uploaded" ] then js "업로드완료"
  else status.

(** *** Notifications and the main card *)

Definition setNotiModalVisible (v : bool) : eff State unit :=
  update (fun s =>
    {| documents := documents s; loading := loading s;
       refreshing := refreshing s; notifications := notifications s;
       isNotiModalVisible := v;
       showMainNotification := showMainNotification s |}).

Definition setShowMainNotification (v : bool) : eff State unit :=
  update (fun s =>
    {| documents := documents s; loading := loading s;
       refreshing := refreshing s; notifications := notifications s;
       isNotiModalVisible := isNotiModalVisible s;
       showMainNotification := v |}).

(** [notifications.some(n => !n.read)] *)
Definition hasUnread (s : State) : bool :=
  existsb (fun n => negb (read n)) (notifications s).

(** [{ ...item, read: true }] *)
Definition markRead (item : NotificationItem) : NotificationItem :=
  {| id := id item; type := type item; title := title item;
     message := message item; date := date item; read := true |}.

(** A notification after presses on the notifications [pressed]. *)
Definition pressed_among (pressed : list NotificationItem)
    (n : NotificationItem) : NotificationItem :=
  if existsb (fun p => JsString.eqb (id n) (id p)) pressed
  then markRead n else n.

(** The tabs [navigation.navigate] is called with. *)
Inductive Route : Type := Documents | Upload | Chat.

(** [handleNotificationItemPress]; the result is where it navigates, if
    anywhere. *)
Definition handleNotificationItemPress
    (pressed : jsstring) (pressed_type : NotificationType)
  : eff State (option Route) :=
  setNotifications
    (map (fun item =>
            if JsString.eqb (id item) pressed then markRead item else item)) ;;
  setNotiModalVisible false ;;
  ret (match pressed_type with
       | complete => Some Documents
       | _ => None
       end).

Section MainCard.
Context {host : Host}.

(** [handleMainCardPress], [latestDoc] being the value of the render the
    handler belongs to. *)
Definition handleMainCardPress (latestDoc : JsVal) : eff State (option Route) :=
  if truthy latestDoc then
    status <- lift (get_prop latestDoc (js "status")) ;;
    finished <- (if strict_eq_str status (js "분석완료") then ret true
               else
                 status' <- lift (get_prop latestDoc (js "status")) ;;
                 ret (strict_eq_str status' (js "completed"))) ;;
    if finished : bool then
      setShowMainNotification false ;;
      ret (Some Documents)
    else ret None
  else ret None.

End MainCard.

(** The title of the main card:
    [(latestDoc.status === '분석중' || latestDoc.status === 'analyzing')
     ? '⏳ 분석 진행 중' : '✅ 분석 완료'] *)
Definition mainCardTitle (status : JsVal) : jsstring :=
  if strict_eq_str status (js "분석중") || strict_eq_str status (js "analyzing")
  then js "⏳ 분석 진행 중"
  else js "✅ 분석 완료".

(** [formatDate] between [new Date(dateString)] and [toLocaleDateString]:
    [now] and [time] are what [getTime()] gives for the two dates, [None]
    standing for NaN; the result is [None] where the function goes on to
    [toLocaleDateString]. *)
Definition formatDate_relative (now : Z) (time : option Z) : option jsstring :=
  match time with
  | None => None
  | Some t =>
    let diffMs := (now - t)%Z in
    let diffMins := (diffMs / 60000)%Z in
    let diffHours := (diffMs / 3600000)%Z in
    let diffDays := (diffMs / 86400000)%Z in
    if (diffMins <? 1)%Z then Some (js "방금 전")
    else if (diffMins <? 60)%Z then Some (of_Z diffMins ++ js "분 전")
    else if (diffHours <? 24)%Z then Some (of_Z diffHours ++ js "시간 전")
    else if (diffDays <? 7)%Z then Some (of_Z diffDays ++ js "일 전")
    else None
  end.

(** A document as the [Document] interface declares it, as far as the
    notifications read it: an object whose [document_id] and [filename] are
    strings. *)
Definition is_document (doc : JsVal) : bool :=
  match doc with
  | JObj fields =>
    match lookup (js "document_id") fields, lookup (js "filename") fields with
    | JStr _, JStr _ => true
    | _, _ => false
    end
  | _ => false
  end.

(** A notice as [fetchDocuments] builds it. *)
Definition fresh_notice (n : NotificationItem) : Prop :=
  type n = complete /\ read n = false /\ title n = js "✅ 분석 완료".

(** [doc.status === 'completed' || doc.status === '분석완료'] *)
Definition completed (doc : JsVal) : bool :=
  match doc with
  | JObj fields =>
    strict_eq_str (lookup (js "status") fields) (js "completed")
    || strict_eq_str (lookup (js "status") fields) (js "분석완료")
  | _ => false
  end.

End HomeScreen.

(** ** DocumentUploadScreen.tsx *)

Module DocumentUploadScreen.

(** An asset of expo-document-picker. *)
Record Asset : Type := {
  uri : jsstring;
  mimeType : option jsstring;
  name : jsstring
}.

(** The request of [handleUpload] for the picked file. *)
Definition handleUpload_request (asset : Asset) : Request := {|
  req_method := POST;
  req_url := BACKEND_URL ++ js "/api/v1/documents/upload";
  req_body :=
    FormBody
      [ (js "file",
         {| part_uri := uri asset;
            part_type :=
              match mimeType asset with
              | Some t => if truthy (JStr t) then t else js "application/pdf"
              | None => js "application/pdf"
              end;
            part_name := name asset |}) ];
  req_timeout := Some 30000%Z;
  req_headers := [ (js "Content-Type", js "multipart/form-data") ]
|}.

(** *** The handler and the status line *)

Record State : Type := {
  uploadStatus : jsstring;
  isUploading : bool
}.

Definition initial : State := {|
  uploadStatus := js "파일을 선택해주세요";
  isUploading := false
|}.

Definition setUploadStatus (v : jsstring) : eff State unit :=
  update (fun s => {| uploadStatus := v; isUploading := isUploading s |}).

Definition setIsUploading (v : bool) : eff State unit :=
  update (fun s => {| uploadStatus := uploadStatus s; isUploading := v |}).

(** What [DocumentPicker.getDocumentAsync] resolves with. *)
Inductive PickerResult : Type :=
| Canceled
| Picked (assets : list Asset).

(** A dialog of [Alert.alert]; the one of a success offers the list of
    documents. *)
Record Dialog : Type := {
  dialog_title : jsstring;
  dialog_message : jsstring;
  dialog_offers_list : bool
}.

(** How [handleUpload] goes on after the picker: it has ended, with a
    dialog or without, or it waits for the upload of an asset. *)
Inductive Progress : Type :=
| Ended (dialog : option Dialog)
| Uploading (request : Request) (asset : Asset).

(** The style of the status line:
    [uploadStatus.includes('✅') ? styles.successText :
     uploadStatus.includes('❌') ? styles.errorText : styles.normalText] *)
Inductive Style : Type := successText | errorText | normalText.

Definition statusStyle (s : State) : Style :=
  if includes (uploadStatus s) (js "✅") then successText
  else if includes (uploadStatus s) (js "❌") then errorText
  else normalText.

Section WithHost.
Context {host : Host}.

(** The [catch] clause of [handleUpload]. *)
Definition uploadFailed (error : JsError) : eff State Dialog :=
  setUploadStatus (js "❌ 업로드 실패: " ++ err_message error) ;;
  ret {| dialog_title := js "오류";
         dialog_message := js "업로드에 실패했습니다: " ++ err_message error;
         dialog_offers_list := false |}.


(** [handleUpload] from the picker, which has ended in [picked], up to the
    upload. *)
Definition handleUpload_picked (picked : completion PickerResult)
  : eff State Progress :=
  fun s0 =>
    match
      (result <- lift picked ;;
       match result with
       | Canceled =>
         setUploadStatus (js "파일 선택이 취소되었습니다.") ;;
         ret (Ended None)
       | Picked assets =>
         setIsUploading true ;;
         asset <- lift (match assets with
                        | asset :: _ => Normal asset
                        | [] => Throw (TypeError (ReadOfNullish (js "name")))
                        end) ;;
         setUploadStatus (js "업로드 중: " ++ name asset) ;;
         ret (Uploading (handleUpload_request asset) asset)
       end) s0
    with
    | (s1, Normal (Uploading request asset)) =>
      (s1, Normal (Uploading request asset))
    | (s1, Normal (Ended dialog)) =>
      try_finally (ret (Ended dialog)) (setIsUploading false) s1
    | (s1, Throw error) =>
      try_finally (dialog <- uploadFailed error ;; ret (Ended (Some dialog)))
                  (setIsUploading false) s1
    end.

(** [handleUpload] from the end of the upload of [asset] in [o]. *)
Definition handleUpload_done (asset : Asset) (o : Outcome)
  : eff State Dialog :=
  try_finally
    (try_catch
       (response <- lift (await o) ;;
        setUploadStatus (js "✅ 업로드 성공! 파일: " ++ name asset) ;;
        ret {| dialog_title := js "성공!";
               dialog_message :=
                 js "파일이 성공적으로 업로드되었습니다! 🎉" ++ [10]%N
                 ++ js "문서 목록으로 이동할까요?";
               dialog_offers_list := true |})
       uploadFailed)
    (setIsUploading false).

End WithHost.

End DocumentUploadScreen.

(** ** Sample data *)

Module Samples.

(** A document as the listing endpoint describes it. *)
Definition report : JsVal :=
  JObj [ (js "document_id", JStr (js "d1"));
         (js "filename", JStr (js "report.pdf"));
         (js "created_at", JStr (js "2025-01-01T00:00:00Z"));
         (js "status", JStr (js "completed")) ].

Definition wrapped_listing : JsVal := JObj [ (js "documents", JArr [report]) ].

Definition bare_listing : JsVal := JArr [report].

(** The error axios rejects with when its timeout expires, and the ones for
    an HTTP 404 and an HTTP 500 response. *)
Definition timeout_error : JsError := {|
  err_code := Some (js "ECONNABORTED");
  err_response := None;
  err_message := js "timeout of 30000ms exceeded"
|}.

Definition not_found_error : JsError := {|
  err_code := Some (js "ERR_BAD_REQUEST");
  err_response := Some 404%Z;
  err_message := js "Request failed with status code 404"
|}.

Definition server_error : JsError := {|
  err_code := Some (js "ERR_BAD_RESPONSE");
  err_response := Some 500%Z;
  err_message := js "Request failed with status code 500"
|}.

Definition network_error : JsError := {|
  err_code := Some (js "ERR_NETWORK");
  err_response := None;
  err_message := js "Network Error"
|}.

(** Bodies of a chat response. *)
Definition answer_body : JsVal := JObj [ (js "answer", JStr (js "2025-03-01")) ].

Definition response_body : JsVal :=
  JObj [ (js "response", JStr (js "2025-03-01")) ].

Definition numeric_answer_body : JsVal := JObj [ (js "answer", JNum 42) ].

(** A chat with three messages found by the search, the last one current. *)
Definition searching : ChatScreen.State := {|
  ChatScreen.isSearchMode := true;
  ChatScreen.searchText := js "a";
  ChatScreen.foundIds := [ js "1"; js "2"; js "3" ];
  ChatScreen.currentMatchIndex := 2;
  ChatScreen.message := [];
  ChatScreen.messages :=
    [ {| ChatScreen.id := js "1"; ChatScreen.text := JStr (js "a");
         ChatScreen.isUser := false; ChatScreen.timestamp := 0 |};
      {| ChatScreen.id := js "2"; ChatScreen.text := JStr (js "ab");
         ChatScreen.isUser := true; ChatScreen.timestamp := 1 |};
      {| ChatScreen.id := js "3"; ChatScreen.text := JStr (js "ba");
         ChatScreen.isUser := false; ChatScreen.timestamp := 2 |} ];
  ChatScreen.isTyping := false;
  ChatScreen.currentDocumentId := JNull
|}.

(** The same chat after an answer that is a number. *)
Definition chat_with_numeric_answer : ChatScreen.State := {|
  ChatScreen.isSearchMode := true;
  ChatScreen.searchText := js "a";
  ChatScreen.foundIds := [];
  ChatScreen.currentMatchIndex := 0;
  ChatScreen.message := [];
  ChatScreen.messages :=
    ChatScreen.messages searching
    ++ [ {| ChatScreen.id := js "4"; ChatScreen.text := JNum 42;
            ChatScreen.isUser := false; ChatScreen.timestamp := 3 |} ];
  ChatScreen.isTyping := false;
  ChatScreen.currentDocumentId := JNull
|}.

(** A second document, uploaded and not analyzed yet. *)
Definition draft : JsVal :=
  JObj [ (js "document_id", JStr (js "d2"));
         (js "filename", JStr (js "Draft.docx"));
         (js "created_at", JStr (js "2025-01-02T00:00:00Z"));
         (js "status", JStr (js "uploaded")) ].

Definition listing : DocumentListScreen.State := {|
  DocumentListScreen.searchText := js "DRAFT";
  DocumentListScreen.selectedFilter := js "업로드 완료";
  DocumentListScreen.documents := JArr [report; draft];
  DocumentListScreen.loading := false;
  DocumentListScreen.refreshing := false
|}.

End Samples.

(** * Properties of the screens *)

(** ** Strings *)

Example js_code_units : js "분석 중" = [48516; 49437; 32; 51473]%N.
Proof. reflexivity. Qed.

Example js_surrogate_pair : js "⏰📄" = [9200; 55357; 56516]%N.
Proof. reflexivity. Qed.

Example trim_strips_both_ends :
  trim ([160; 9]%N ++ js "a b" ++ [12288; 10]%N) = js "a b".
Proof. reflexivity. Qed.

Example includes_substring :
  includes (js "문서 요약해줘") (js "요약") = true
  /\ includes (js "문서 요약해줘") (js "마감") = false.
Proof. split; reflexivity. Qed.

Example of_Z_decimal :
  of_Z 1700000000000 = js "1700000000000" /\ of_Z 0 = js "0"
  /\ of_Z (-5) = js "-5".
Proof. repeat split; reflexivity. Qed.

Example ToString_values :
  ToString (host := sample_host) (JArr [JNum 1; JNull; JStr (js "a")])
  = Normal (js "1,,a")
  /\ ToString (host := sample_host) (JObj [ (js "a", JNum 1) ])
     = Normal (js "[object Object]")
  /\ ToString (host := sample_host) JUndefined = Normal (js "undefined").
Proof. repeat split; reflexivity. Qed.

Example fetchLatestDocument_message :
  map ChatScreen.text
      (ChatScreen.messages
         (fst (ChatScreen.fetchLatestDocument (host := sample_host)
                 (Resolved Samples.wrapped_listing) 7 8
                 (ChatScreen.initial 0))))
  = map ChatScreen.text (ChatScreen.messages (ChatScreen.initial 0))
    ++ [ JStr (js "📄 " ++ [34]%N ++ js "report.pdf" ++ [34]%N
               ++ js " 문서가 자동으로 선택되었습니다. 이제 이 문서에 대해 질문할 수 있어요!") ].
Proof. vm_compute. reflexivity. Qed.

Example HomeScreen_notifications :
  map HomeScreen.id
      (HomeScreen.notifications
         (fst (HomeScreen.fetchDocuments (host := sample_host)
                 (Resolved Samples.wrapped_listing) HomeScreen.initial)))
  = [ js "complete_d1"; js "welcome" ].
Proof. vm_compute. reflexivity. Qed.

Lemma jsstring_eqb_eq (a b : jsstring) : JsString.eqb a b = true <-> a = b.
Proof.
  revert b. induction a as [|x a IH]; destruct b as [|y b]; simpl;
    split; try discriminate; auto.
  - intro E. apply andb_prop in E. destruct E as [E1 E2].
    apply N.eqb_eq in E1. apply IH in E2. congruence.
  - intro E. injection E as -> ->. rewrite N.eqb_refl. apply IH. reflexivity.
Qed.

Lemma trimStart_nil (s : jsstring) :
  trimStart s = [] <-> forallb is_white_space s = true.
Proof.
  induction s as [|c s IH]; simpl.
  - tauto.
  - destruct (is_white_space c); simpl; [exact IH |].
    split; discriminate.
Qed.

Lemma trimStart_head (s : jsstring) :
  match trimStart s with
  | [] => True
  | c :: _ => is_white_space c = false
  end.
Proof.
  induction s as [|c s IH]; simpl; auto.
  destruct (is_white_space c) eqn:E; auto.
Qed.

(** [trim] leaves nothing exactly of the strings made of white space. *)
Lemma trim_nil (s : jsstring) :
  trim s = [] <-> forallb is_white_space s = true.
Proof.
  unfold trim, trimEnd. split.
  - intro E.
    assert (E' : trimStart (rev (trimStart s)) = []).
    { apply (f_equal (@rev N)) in E. rewrite rev_involutive in E. exact E. }
    apply trimStart_nil in E'.
    pose proof (trimStart_head s) as Hd.
    destruct (trimStart s) as [|c r] eqn:T.
    + apply trimStart_nil. exact T.
    + rewrite forallb_forall in E'.
      assert (W : is_white_space c = true)
        by (apply E'; apply -> in_rev; left; reflexivity).
      congruence.
  - intro W. apply trimStart_nil in W. rewrite W. reflexivity.
Qed.

Lemma trim_blank_falsy (s : jsstring) :
  negb (truthy (JStr (trim s))) = forallb is_white_space s.
Proof.
  simpl. rewrite negb_involutive.
  destruct (forallb is_white_space s) eqn:W.
  - apply trim_nil in W. rewrite W. reflexivity.
  - destruct (JsString.eqb (trim s) []) eqn:E; auto.
    apply jsstring_eqb_eq in E. apply trim_nil in E. congruence.
Qed.

(** ** Status labels and colours (DocumentListScreen, HomeScreen) *)

(** C8. For every status string, DocumentListScreen's getStatusText returns
    one of the three labels '분석 완료', '분석 중', '업로드 완료'; a value
    outside the vocabulary of its switch gets '업로드 완료'; and the badge
    colour getStatusColor(getStatusText(status)) is never the fallback
    '#666'. The three labels are different, and each of them is returned
    for some status. *)
Theorem C8_status_text_total (status : jsstring) :
  (DocumentListScreen.getStatusText status = js "분석 완료"
   \/ DocumentListScreen.getStatusText status = js "분석 중"
   \/ DocumentListScreen.getStatusText status = js "업로드 완료")
  /\ (one_of status [ js "completed"; js "analyzed"; js "분석완료";
                      js "analyzing"; js "reanalyzing"; js "uploaded" ] = false ->
      DocumentListScreen.getStatusText status = js "업로드 완료")
  /\ DocumentListScreen.statusBadge status <> js "#666"
  /\ map DocumentListScreen.getStatusText
         [ js "completed"; js "analyzing"; js "uploaded" ]
     = [ js "분석 완료"; js "분석 중"; js "업로드 완료" ]
  /\ NoDup [ js "분석 완료"; js "분석 중"; js "업로드 완료" ].
Proof.
  assert (Labels : NoDup [ js "분석 완료"; js "분석 중"; js "업로드 완료" ]).
  { repeat constructor; simpl; intros D;
      repeat (destruct D as [D | D]; [vm_compute in D; discriminate D |]);
      exact D. }
  unfold DocumentListScreen.statusBadge, DocumentListScreen.getStatusText.
  destruct (one_of status [js "completed"; js "analyzed"; js "분석완료"]) eqn:E1;
    [| destruct (one_of status [js "analyzing"; js "reanalyzing"]) eqn:E2;
       [| destruct (one_of status [js "uploaded"]) eqn:E3 ] ].
  all: repeat split; auto.
  all: try (intro E; vm_compute in E; discriminate E).
  all: intro U; unfold one_of in *; cbn [existsb] in *;
       repeat match goal with
              | Hx : (_ || _)%bool = true |- _ => apply orb_prop in Hx; destruct Hx
              | Hx : (_ || _)%bool = false |- _ => apply orb_false_elim in Hx; destruct Hx
              end; congruence.
Qed.

(** C2. At '분석중' DocumentListScreen's getStatusText answers with the label
    of the uploaded stage, not the one it gives 'analyzing', while
    getStatusColor and getStatusIcon of the same screen do treat the two
    alike; HomeScreen's getStatusText hands 'analyzed' and 'reanalyzing'
    back unchanged, unlike 'completed' and 'analyzing'. *)
Theorem C2_status_vocabulary_gaps :
  DocumentListScreen.getStatusText (js "분석중") = js "업로드 완료"
  /\ DocumentListScreen.getStatusText (js "analyzing") = js "분석 중"
  /\ DocumentListScreen.getStatusText (js "uploaded") = js "업로드 완료"
  /\ DocumentListScreen.getStatusColor (js "분석중")
     = DocumentListScreen.getStatusColor (js "analyzing")
  /\ DocumentListScreen.getStatusIcon (js "분석중")
     = DocumentListScreen.getStatusIcon (js "analyzing")
  /\ HomeScreen.getStatusText (js "completed") = js "분석완료"
  /\ HomeScreen.getStatusText (js "analyzed") = js "analyzed"
  /\ HomeScreen.getStatusText (js "analyzing") = js "분석중"
  /\ HomeScreen.getStatusText (js "reanalyzing") = js "reanalyzing".
Proof. repeat split; vm_compute; reflexivity. Qed.

(** The part of the vocabulary the screens do recognise: getStatusColor of
    DocumentListScreen gives every English and Korean value of a stage the
    colour of that stage. *)
Lemma DocumentList_getStatusColor_stages :
  map DocumentListScreen.getStatusColor
      [ js "completed"; js "analyzed"; js "분석완료" ]
  = [ js "#4CAF50"; js "#4CAF50"; js "#4CAF50" ]
  /\ map DocumentListScreen.getStatusColor
         [ js "analyzing"; js "reanalyzing"; js "분석중" ]
     = [ js "#FF9800"; js "#FF9800"; js "#FF9800" ]
  /\ map DocumentListScreen.getStatusColor [ js "uploaded"; js "업로드완료" ]
     = [ js "#2196F3"; js "#2196F3" ].
Proof. repeat split; vm_compute; reflexivity. Qed.

(** ** Requests *)

(** C7. The chat request carries a timeout of exactly 30000 ms, and so do
    the upload request and the analyze request. *)
Theorem C7_request_timeouts :
  (forall document_id userMessage,
      req_timeout (ChatScreen.sendMessageToBackend_request document_id userMessage)
      = Some 30000%Z)
  /\ (forall asset,
      req_timeout (DocumentUploadScreen.handleUpload_request asset)
      = Some 30000%Z)
  /\ (forall documentId,
      req_timeout (DocumentListScreen.analyzeDocument_request documentId)
      = Some 30000%Z).
Proof. repeat split. Qed.

(** ** Chat answers and failures (ChatScreen) *)

Section ChatBackend.
Context {host : Host}.

Import ChatScreen.

Lemma fixed_messages_distinct :
  TIMEOUT_MESSAGE <> NOT_FOUND_MESSAGE
  /\ TIMEOUT_MESSAGE <> SERVER_ERROR_MESSAGE
  /\ NOT_FOUND_MESSAGE <> SERVER_ERROR_MESSAGE.
Proof. repeat split; intro E; vm_compute in E; discriminate E. Qed.

Lemma connection_error_distinct (message : jsstring) :
  CONNECTION_ERROR message <> TIMEOUT_MESSAGE
  /\ CONNECTION_ERROR message <> NOT_FOUND_MESSAGE
  /\ CONNECTION_ERROR message <> SERVER_ERROR_MESSAGE.
Proof.
  unfold CONNECTION_ERROR.
  repeat split; intro E; vm_compute in E; discriminate E.
Qed.

Lemma option_is_eqb_false (code : option jsstring) (label : jsstring) :
  code <> Some label -> option_is JsString.eqb code label = false.
Proof.
  destruct code as [c|]; simpl; auto.
  intro D. destruct (JsString.eqb c label) eqn:E; auto.
  apply jsstring_eqb_eq in E. congruence.
Qed.

Lemma option_is_Zeqb_false (status : option Z) (n : Z) :
  status <> Some n -> option_is Z.eqb status n = false.
Proof.
  destruct status as [c|]; simpl; auto.
  intro D. apply Z.eqb_neq. congruence.
Qed.

(** C1. A failed chat request is answered by a fixed message per case: an
    error with code 'ECONNABORTED' by the timeout message; otherwise a
    response with status 404 by the upload-a-document-first message, one
    with status 500 by the transient-server-problem message, and any other
    error by the generic connection-error message; the three fixed messages
    differ from one another, and from every connection-error message. *)
Theorem C1_chat_failure_messages (error : JsError) :
  (err_code error = Some (js "ECONNABORTED") ->
   sendMessageToBackend (Rejected error) = Normal (JStr TIMEOUT_MESSAGE))
  /\ (err_code error <> Some (js "ECONNABORTED") ->
      err_response error = Some 404%Z ->
      sendMessageToBackend (Rejected error) = Normal (JStr NOT_FOUND_MESSAGE))
  /\ (err_code error <> Some (js "ECONNABORTED") ->
      err_response error = Some 500%Z ->
      sendMessageToBackend (Rejected error) = Normal (JStr SERVER_ERROR_MESSAGE))
  /\ (err_code error <> Some (js "ECONNABORTED") ->
      err_response error <> Some 404%Z ->
      err_response error <> Some 500%Z ->
      sendMessageToBackend (Rejected error)
      = Normal (JStr (CONNECTION_ERROR (err_message error))))
  /\ TIMEOUT_MESSAGE <> NOT_FOUND_MESSAGE
  /\ TIMEOUT_MESSAGE <> SERVER_ERROR_MESSAGE
  /\ NOT_FOUND_MESSAGE <> SERVER_ERROR_MESSAGE
  /\ (forall message,
        CONNECTION_ERROR message <> TIMEOUT_MESSAGE
        /\ CONNECTION_ERROR message <> NOT_FOUND_MESSAGE
        /\ CONNECTION_ERROR message <> SERVER_ERROR_MESSAGE).
Proof.
  unfold sendMessageToBackend; cbn [await bind completion_monad catching ret].
  split; [| split; [| split; [| split]]].
  - intro C. rewrite C. vm_compute. reflexivity.
  - intros C R. rewrite (option_is_eqb_false C), R. vm_compute. reflexivity.
  - intros C R. rewrite (option_is_eqb_false C), R. vm_compute. reflexivity.
  - intros C N4 N5.
    rewrite (option_is_eqb_false C), (option_is_Zeqb_false N4),
            (option_is_Zeqb_false N5).
    reflexivity.
  - pose proof fixed_messages_distinct as (D1 & D2 & D3).
    split; [exact D1 | split; [exact D2 | split; [exact D3 |]]].
    exact connection_error_distinct.
Qed.

Lemma truthy_string (v : JsVal) :
  truthy v = true -> string_or_absent v = true ->
  exists s, v = JStr s /\ s <> [].
Proof.
  destruct v; simpl; try discriminate.
  intros T _. exists s. split; [reflexivity |].
  intros ->. discriminate T.
Qed.

Lemma NO_ANSWER_nonempty : NO_ANSWER <> [].
Proof. intro E. vm_compute in E. discriminate E. Qed.

Lemma sendMessageToBackend_rejected (error : JsError) :
  exists s, sendMessageToBackend (Rejected error) = Normal (JStr s) /\ s <> [].
Proof.
  unfold sendMessageToBackend; cbn [await bind completion_monad catching ret].
  destruct (option_is JsString.eqb (err_code error) (js "ECONNABORTED"));
    [| destruct (option_is Z.eqb (err_response error) 404%Z);
       [| destruct (option_is Z.eqb (err_response error) 500%Z)]];
    eexists; (split; [reflexivity |]);
    intro E; vm_compute in E; discriminate E.
Qed.

Lemma get_prop_defined (data : JsVal) (name : jsstring) :
  data <> JNull -> data <> JUndefined ->
  exists v, get_prop data name = Normal v.
Proof.
  destruct data; simpl; try congruence; eauto.
Qed.

(** C6, as the code has it. For every successful chat response whose body is
    not null or undefined, sendMessageToBackend returns response.data.answer
    when it is truthy, otherwise response.data.response when it is truthy,
    otherwise a fixed non-empty fallback string, so both the { answer } and
    the { response } shape are accepted; a null or undefined body is
    answered by the generic connection-error message. For every outcome,
    success or error, the function completes normally with a truthy value
    and never throws; the value is a non-empty string for every error, and
    for every success whose answer and response fields are strings or
    absent. *)
Theorem C6_chat_answer (o : Outcome) :
  (forall data, o = Resolved data -> data <> JNull -> data <> JUndefined ->
     exists answer response,
       get_prop data (js "answer") = Normal answer
       /\ get_prop data (js "response") = Normal response
       /\ sendMessageToBackend o
          = Normal (if truthy answer then answer
                    else if truthy response then response
                    else JStr NO_ANSWER)
       /\ (string_or_absent answer = true ->
           string_or_absent response = true ->
           exists s, sendMessageToBackend o = Normal (JStr s) /\ s <> []))
  /\ NO_ANSWER <> []
  /\ (forall data, o = Resolved data -> data = JNull \/ data = JUndefined ->
      sendMessageToBackend o
      = Normal (JStr (CONNECTION_ERROR
                        (type_error_text (ReadOfNullish (js "answer"))))))
  /\ (forall error, o = Rejected error ->
      exists s, sendMessageToBackend o = Normal (JStr s) /\ s <> [])
  /\ (exists v, sendMessageToBackend o = Normal v /\ truthy v = true).
Proof.
  assert (Ok : forall data answer response,
             get_prop data (js "answer") = Normal answer ->
             get_prop data (js "response") = Normal response ->
             sendMessageToBackend (Resolved data)
             = Normal (if truthy answer then answer
                       else if truthy response then response
                       else JStr NO_ANSWER)).
  { intros data answer response Ea Er.
    unfold sendMessageToBackend; cbn [await bind completion_monad catching ret].
    rewrite Ea. destruct (truthy answer); [reflexivity |].
    rewrite Er. destruct (truthy response); reflexivity. }
  assert (Nullish : forall data, data = JNull \/ data = JUndefined ->
             sendMessageToBackend (Resolved data)
             = Normal (JStr (CONNECTION_ERROR
                               (type_error_text (ReadOfNullish (js "answer")))))).
  { intros data [-> | ->]; reflexivity. }
  assert (Truthy : forall answer response,
             truthy (if truthy answer then answer
                     else if truthy response then response
                     else JStr NO_ANSWER) = true).
  { intros answer response.
    destruct (truthy answer) eqn:Ta; [exact Ta |].
    destruct (truthy response) eqn:Tr; [exact Tr |].
    vm_compute. reflexivity. }
  split; [| split; [exact NO_ANSWER_nonempty | split; [| split]]].
  - intros data -> N1 N2.
    destruct (get_prop_defined (js "answer") N1 N2) as [answer Ea].
    destruct (get_prop_defined (js "response") N1 N2) as [response Er].
    exists answer, response. rewrite (Ok _ _ _ Ea Er).
    repeat split; auto.
    intros Sa Sr.
    destruct (truthy answer) eqn:Ta.
    { destruct (truthy_string _ Ta Sa) as (s & -> & Ns). eauto. }
    destruct (truthy response) eqn:Tr.
    { destruct (truthy_string _ Tr Sr) as (s & -> & Ns). eauto. }
    exists NO_ANSWER. split; [reflexivity | exact NO_ANSWER_nonempty].
  - intros data ->. apply Nullish.
  - intros error ->. apply sendMessageToBackend_rejected.
  - destruct o as [data | error].
    + destruct data eqn:D;
        try (rewrite (Nullish _ (or_introl eq_refl)) ||
             rewrite (Nullish _ (or_intror eq_refl));
             eexists; split; [reflexivity |]; reflexivity).
      all: rewrite <- D;
        assert (N1 : data <> JNull) by (rewrite D; discriminate);
        assert (N2 : data <> JUndefined) by (rewrite D; discriminate);
        destruct (get_prop_defined (js "answer") N1 N2) as [answer Ea];
        destruct (get_prop_defined (js "response") N1 N2) as [response Er];
        rewrite (Ok _ _ _ Ea Er); eexists; split; [reflexivity | apply Truthy].
    + destruct (sendMessageToBackend_rejected error) as (s & -> & Ns).
      exists (JStr s). split; [reflexivity |].
      simpl. destruct s; [congruence | reflexivity].
Qed.

End ChatBackend.

(** ** Sending a message (ChatScreen) *)

Section ChatSend.
Context {host : Host}.

Import ChatScreen.

Lemma sendMessageToBackend_returns (o : Outcome) :
  exists v, sendMessageToBackend o = Normal v.
Proof.
  unfold sendMessageToBackend.
  match goal with
  | |- exists v, catching ?body _ = _ => destruct body as [v | e]
  end; cbn [catching ret completion_monad]; [eauto |].
  destruct (option_is JsString.eqb (err_code e) (js "ECONNABORTED"));
    [| destruct (option_is Z.eqb (err_response e) 404%Z);
       [| destruct (option_is Z.eqb (err_response e) 500%Z)]]; eauto.
Qed.

Lemma sendMessage_resume_appends (o : Outcome) (now_id now_ts : Z) (s : State) :
  exists reply s',
    sendMessage_resume o now_id now_ts s = (s', Normal tt)
    /\ messages s' = messages s ++ [reply]
    /\ isUser reply = false
    /\ isTyping s' = false
    /\ message s' = message s
    /\ sendMessageToBackend o = Normal (text reply).
Proof.
  destruct (sendMessageToBackend_returns o) as [v E].
  unfold sendMessage_resume, try_finally, try_catch, lift, setMessages,
    setIsTyping, update.
  cbn [bind eff_monad]. rewrite E.
  eexists _, _. split; [reflexivity |].
  cbn. repeat split; reflexivity.
Qed.

(** C9. On an input that is empty or made of white space only, sendMessage
    returns at once: the state (messages, isTyping, input field) is as it
    was and no request is issued. On any other input it appends exactly one
    user message, whose text is the trimmed input, before it issues the
    chat request, and exactly one message that is not the user's once the
    request has ended, however it ended. *)
Theorem C9_sendMessage_effect
    (textToSend : jsstring) (now_id now_ts : Z) (s : State) :
  (forallb is_white_space textToSend = true ->
   sendMessage_begin textToSend now_id now_ts s = (s, Normal None)
   /\ forall o now3 now4,
        sendMessage textToSend now_id now_ts o now3 now4 s = (s, Normal tt))
  /\ (forallb is_white_space textToSend = false ->
      exists userMessage s1,
        sendMessage_begin textToSend now_id now_ts s
        = (s1, Normal (Some (sendMessageToBackend_request
                               (currentDocumentId s) (trim textToSend))))
        /\ messages s1 = messages s ++ [userMessage]
        /\ isUser userMessage = true
        /\ text userMessage = JStr (trim textToSend)
        /\ (forall o now3 now4 s2,
              exists reply s3,
                sendMessage_resume o now3 now4 s2 = (s3, Normal tt)
                /\ messages s3 = messages s2 ++ [reply]
                /\ isUser reply = false)
        /\ (forall o now3 now4,
              exists reply s3,
                sendMessage textToSend now_id now_ts o now3 now4 s
                = (s3, Normal tt)
                /\ messages s3 = messages s ++ [userMessage; reply]
                /\ isUser reply = false)).
Proof.
  split; intro W.
  - assert (B : sendMessage_begin textToSend now_id now_ts s = (s, Normal None)).
    { unfold sendMessage_begin. rewrite trim_blank_falsy, W. reflexivity. }
    split; [exact B |].
    intros o now3 now4. unfold sendMessage. cbn [bind eff_monad].
    rewrite B. reflexivity.
  - pose (userMessage := {| id := of_Z now_id; text := JStr (trim textToSend);
                            isUser := true; timestamp := now_ts |}).
    assert (B : exists s1,
               sendMessage_begin textToSend now_id now_ts s
               = (s1, Normal (Some (sendMessageToBackend_request
                                      (currentDocumentId s) (trim textToSend))))
               /\ messages s1 = messages s ++ [userMessage]).
    { unfold sendMessage_begin. rewrite trim_blank_falsy, W.
      eexists. split; reflexivity. }
    destruct B as (s1 & B & M1).
    exists userMessage, s1.
    split; [exact B |]. split; [exact M1 |].
    split; [reflexivity |]. split; [reflexivity |]. split.
    + intros o now3 now4 s2.
      destruct (sendMessage_resume_appends o now3 now4 s2)
        as (reply & s3 & E & M & U & _).
      exists reply, s3. auto.
    + intros o now3 now4.
      destruct (sendMessage_resume_appends o now3 now4 s1)
        as (reply & s3 & E & M & U & _).
      exists reply, s3. unfold sendMessage. cbn [bind eff_monad].
      rewrite B, E. split; [reflexivity |]. split; [| exact U].
      rewrite M, M1, <- app_assoc. reflexivity.
Qed.

End ChatSend.

(** ** Searching the conversation (ChatScreen) *)

Section ChatSearch.
Context {host : Host}.

Import ChatScreen.

Lemma match_count_pos (s : State) : foundIds s <> [] -> (0 < match_count s)%Z.
Proof.
  unfold match_count. destruct (foundIds s); [congruence | simpl; lia].
Qed.

Lemma handleNextMatch_step (s : State) :
  foundIds s <> [] ->
  exists s',
    handleNextMatch s = (s', Normal tt)
    /\ foundIds s' = foundIds s
    /\ currentMatchIndex s'
       = Z.rem (currentMatchIndex s + 1) (match_count s).
Proof.
  intro N. pose proof (match_count_pos s N) as P. unfold match_count in *.
  unfold handleNextMatch, read. cbn [bind eff_monad].
  destruct (Z.of_nat (List.length (foundIds s)) =? 0)%Z eqn:E;
    [apply Z.eqb_eq in E; lia |].
  eexists. split; [reflexivity |]. split; reflexivity.
Qed.

Lemma handlePrevMatch_step (s : State) :
  foundIds s <> [] ->
  exists s',
    handlePrevMatch s = (s', Normal tt)
    /\ foundIds s' = foundIds s
    /\ currentMatchIndex s'
       = Z.rem (currentMatchIndex s - 1 + match_count s) (match_count s).
Proof.
  intro N. pose proof (match_count_pos s N) as P. unfold match_count in *.
  unfold handlePrevMatch, read. cbn [bind eff_monad].
  destruct (Z.of_nat (List.length (foundIds s)) =? 0)%Z eqn:E;
    [apply Z.eqb_eq in E; lia |].
  eexists. split; [reflexivity |]. split; reflexivity.
Qed.

Lemma searchEffect_result (s s' : State) :
  searchEffect s = (s', Normal tt) ->
  foundIds s' = [] \/ currentMatchIndex s' = 0%Z.
Proof.
  unfold searchEffect, read. cbn [bind eff_monad].
  destruct (JsString.eqb (trim (searchText s)) []).
  - intro E. injection E as <-. left. reflexivity.
  - unfold lift.
    destruct (filterM _ (messages s)) as [found | e]; [| discriminate].
    intro E. injection E as <-. right. reflexivity.
Qed.

Lemma next_prev_in_range (s : State) :
  foundIds s <> [] -> (0 <= currentMatchIndex s)%Z ->
  exists next prev,
    handleNextMatch s = (next, Normal tt)
    /\ handlePrevMatch s = (prev, Normal tt)
    /\ foundIds next = foundIds s /\ foundIds prev = foundIds s
    /\ currentMatchIndex next
       = ((currentMatchIndex s + 1) mod match_count s)%Z
    /\ currentMatchIndex prev
       = ((currentMatchIndex s - 1) mod match_count s)%Z
    /\ (0 <= currentMatchIndex next < match_count s)%Z
    /\ (0 <= currentMatchIndex prev < match_count s)%Z.
Proof.
  intros N P. pose proof (match_count_pos s N) as L.
  destruct (handleNextMatch_step s N) as (next & En & Fn & In).
  destruct (handlePrevMatch_step s N) as (prev & Ep & Fp & Ip).
  exists next, prev.
  rewrite Z.rem_mod_nonneg in In by lia.
  rewrite Z.rem_mod_nonneg in Ip by lia.
  assert (Ip' : currentMatchIndex prev
                = ((currentMatchIndex s - 1) mod match_count s)%Z).
  { rewrite Ip.
    replace (currentMatchIndex s - 1 + match_count s)%Z
      with (currentMatchIndex s - 1 + 1 * match_count s)%Z by lia.
    apply Z.mod_add. lia. }
  repeat split; auto.
  all: try (rewrite In; apply Z.mod_pos_bound; lia).
  all: rewrite Ip'; apply Z.mod_pos_bound; lia.
Qed.

Lemma next_prev_idle (s : State) :
  foundIds s = [] ->
  handleNextMatch s = (s, Normal tt) /\ handlePrevMatch s = (s, Normal tt).
Proof.
  intro E. unfold handleNextMatch, handlePrevMatch, read.
  cbn [bind eff_monad]. rewrite E. split; reflexivity.
Qed.

(** C10. With a non-empty list of found ids, handleNextMatch moves the index
    one up and handlePrevMatch one down, both modulo the length of the list,
    so the index stays in [0, length); with an empty list both leave the
    state as it is; and a run of the search effect that ends with a
    non-empty list leaves the index at 0. *)
Theorem C10_match_index (s : State) :
  (foundIds s <> [] -> (0 <= currentMatchIndex s)%Z ->
   exists next prev,
     handleNextMatch s = (next, Normal tt)
     /\ handlePrevMatch s = (prev, Normal tt)
     /\ foundIds next = foundIds s /\ foundIds prev = foundIds s
     /\ currentMatchIndex next
        = ((currentMatchIndex s + 1) mod match_count s)%Z
     /\ currentMatchIndex prev
        = ((currentMatchIndex s - 1) mod match_count s)%Z
     /\ (0 <= currentMatchIndex next < match_count s)%Z
     /\ (0 <= currentMatchIndex prev < match_count s)%Z)
  /\ (foundIds s = [] ->
      handleNextMatch s = (s, Normal tt) /\ handlePrevMatch s = (s, Normal tt))
  /\ (forall s', searchEffect s = (s', Normal tt) -> foundIds s' <> [] ->
      currentMatchIndex s' = 0%Z).
Proof.
  split; [exact (next_prev_in_range s) | split].
  - exact (next_prev_idle s).
  - intros s' E N. destruct (searchEffect_result s E); congruence.
Qed.

Lemma searchEffect_in_range (s s' : State) :
  searchEffect s = (s', Normal tt) -> index_in_range s'.
Proof.
  intro E. unfold index_in_range.
  destruct (searchEffect_result s E) as [E0 | E0]; auto.
  destruct (foundIds s') eqn:F'; auto. right.
  rewrite E0. unfold match_count. rewrite F'. simpl. lia.
Qed.

(** The handlers of the search bar keep the index in range; the other
    handlers leave the found ids and the index alone. *)
Lemma search_handlers_keep_index_in_range (s : State) :
  index_in_range s ->
  index_in_range (fst (handleNextMatch s))
  /\ index_in_range (fst (handlePrevMatch s))
  /\ index_in_range (fst (closeSearch s))
  /\ (forall s', searchEffect s = (s', Normal tt) -> index_in_range s').
Proof.
  intro I. unfold index_in_range in I.
  assert (C : index_in_range (fst (closeSearch s))) by (left; reflexivity).
  destruct (foundIds s) as [|i l] eqn:F.
  - destruct (next_prev_idle s F) as [En Ep]. rewrite En, Ep. cbn [fst].
    assert (I0 : index_in_range s) by (left; exact F).
    split; [exact I0 | split; [exact I0 | split; [exact C |]]].
    intros s'. apply searchEffect_in_range.
  - destruct I as [I | I]; [discriminate |].
    assert (N : foundIds s <> []) by (rewrite F; discriminate).
    destruct (next_prev_in_range s N)
      as (next & prev & En & Ep & Fn & Fp & _ & _ & Rn & Rp); [lia |].
    rewrite En, Ep. cbn [fst].
    split; [| split; [| split; [exact C |]]].
    + right. unfold match_count in *. rewrite Fn. exact Rn.
    + right. unfold match_count in *. rewrite Fp. exact Rp.
    + intros s'. apply searchEffect_in_range.
Qed.

Lemma same_search_in_range (s s' : State) :
  same_search s s' -> index_in_range s -> index_in_range s'.
Proof.
  unfold same_search, index_in_range, match_count.
  intros [-> ->] I. exact I.
Qed.

Lemma fetchLatestDocument_same_search (o : Outcome) (now_id now_ts : Z)
    (s : State) :
  same_search s (fst (fetchLatestDocument o now_id now_ts s)).
Proof.
  unfold fetchLatestDocument, try_catch, lift, same_search.
  cbn [bind eff_monad].
  destruct (await o) as [data |]; [| split; reflexivity].
  destruct (get_prop data (js "documents")) as [d |]; [| split; reflexivity].
  destruct (get_prop _ (js "length")) as [len |]; [| split; reflexivity].
  destruct (gt_zero len) as [[|] |]; try (split; reflexivity).
  destruct (get_index _ 0) as [latestDoc |]; [| split; reflexivity].
  destruct (get_prop latestDoc (js "document_id")) as [document_id |];
    [| split; reflexivity].
  unfold setCurrentDocumentId, setMessages, update.
  destruct (get_prop latestDoc (js "filename")) as [filename |];
    [| split; reflexivity].
  destruct (ToString filename); split; reflexivity.
Qed.

Lemma sendMessage_begin_same_search (textToSend : jsstring)
    (now_id now_ts : Z) (s : State) :
  same_search s (fst (sendMessage_begin textToSend now_id now_ts s)).
Proof.
  unfold sendMessage_begin, same_search.
  destruct (negb (truthy (JStr (trim textToSend)))); split; reflexivity.
Qed.

Lemma sendMessage_resume_same_search (o : Outcome) (now_id now_ts : Z)
    (s : State) :
  same_search s (fst (sendMessage_resume o now_id now_ts s)).
Proof.
  unfold sendMessage_resume, try_finally, try_catch, lift, same_search.
  cbn [bind eff_monad].
  destruct (sendMessageToBackend o); split; reflexivity.
Qed.

Lemma step_keeps_index_in_range (s s' : State) :
  step s s' -> index_in_range s -> index_in_range s'.
Proof.
  intros T I.
  pose proof (search_handlers_keep_index_in_range I) as (Next & Prev & Close & _).
  destruct T as [o n1 n2 s | s | t s | s s' E | s | s | s | t s
                 | textToSend n1 n2 s | o n1 n2 s].
  - exact (same_search_in_range (fetchLatestDocument_same_search o n1 n2 s) I).
  - exact I.
  - exact I.
  - exact (searchEffect_in_range s E).
  - exact Prev.
  - exact Next.
  - exact Close.
  - exact I.
  - exact (same_search_in_range
             (sendMessage_begin_same_search textToSend n1 n2 s) I).
  - exact (same_search_in_range (sendMessage_resume_same_search o n1 n2 s) I).
Qed.

(** In every state the screen can reach, the index points into the list of
    found ids whenever the list is not empty. *)
Lemma reachable_index_in_range (s : State) :
  reachable s -> index_in_range s.
Proof.
  induction 1 as [now | s s' R IH T].
  - left. reflexivity.
  - exact (step_keeps_index_in_range T IH).
Qed.

Lemma reachable_index_nonneg (s : State) :
  reachable s -> foundIds s <> [] -> (0 <= currentMatchIndex s)%Z.
Proof.
  intros R N. destruct (reachable_index_in_range R) as [E | I];
    [congruence | lia].
Qed.

End ChatSearch.

(** ** Listing documents (DocumentListScreen, HomeScreen, ChatScreen) *)

Section Listing.
Context {host : Host}.

Lemma length_of_array (items : list JsVal) :
  get_prop (JArr items) (js "length")
  = Normal (JNum (Z.of_nat (List.length items))).
Proof. reflexivity. Qed.

Lemma documents_of_array (items : list JsVal) :
  get_prop (JArr items) (js "documents") = Normal JUndefined.
Proof. reflexivity. Qed.

(** What [response.data.documents || response.data || []] selects. *)
Lemma DocumentList_listedDocuments_cases (data d : JsVal) :
  get_prop data (js "documents") = Normal d ->
  DocumentListScreen.listedDocuments data
  = Normal (if truthy d then d else if truthy data then data else JArr []).
Proof.
  intro E. unfold DocumentListScreen.listedDocuments.
  cbn [bind completion_monad ret]. rewrite E.
  destruct (truthy d); [reflexivity |]. destruct (truthy data); reflexivity.
Qed.

(** The wrapped shape is read alike by the three consumers. *)
Lemma listing_wrapped_shape (data d : JsVal) :
  get_prop data (js "documents") = Normal d -> truthy d = true ->
  DocumentListScreen.listedDocuments data = Normal d
  /\ HomeScreen.listedDocuments data = Normal d.
Proof.
  intros E T.
  unfold DocumentListScreen.listedDocuments, HomeScreen.listedDocuments.
  cbn [bind completion_monad ret]. rewrite E, T. split; reflexivity.
Qed.

(** A bare array is kept by DocumentListScreen only. *)
Lemma listing_bare_array (items : list JsVal) (now_id now_ts : Z)
    (s : ChatScreen.State) :
  DocumentListScreen.listedDocuments (JArr items) = Normal (JArr items)
  /\ HomeScreen.listedDocuments (JArr items) = Normal (JArr [])
  /\ ChatScreen.fetchLatestDocument (Resolved (JArr items)) now_id now_ts s
     = (s, Normal tt).
Proof. repeat split. Qed.

(** C3. Given the bare array [[report]] as the body of the listing,
    DocumentListScreen's fetchDocuments stores the array, while HomeScreen's
    fetchDocuments stores the empty list and ChatScreen's
    fetchLatestDocument selects no document; given the same document in the
    wrapped shape all three use it. *)
Theorem C3_bare_array_listing (now_id now_ts : Z) :
  DocumentListScreen.documents
    (fst (DocumentListScreen.fetchDocuments (Resolved Samples.bare_listing)
                                            DocumentListScreen.initial))
  = JArr [Samples.report]
  /\ HomeScreen.documents
       (fst (HomeScreen.fetchDocuments (Resolved Samples.bare_listing)
                                       HomeScreen.initial))
     = JArr []
  /\ ChatScreen.currentDocumentId
       (fst (ChatScreen.fetchLatestDocument (Resolved Samples.bare_listing)
                                            now_id now_ts
                                            (ChatScreen.initial 0)))
     = JNull
  /\ DocumentListScreen.documents
       (fst (DocumentListScreen.fetchDocuments (Resolved Samples.wrapped_listing)
                                               DocumentListScreen.initial))
     = JArr [Samples.report]
  /\ HomeScreen.documents
       (fst (HomeScreen.fetchDocuments (Resolved Samples.wrapped_listing)
                                       HomeScreen.initial))
     = JArr [Samples.report]
  /\ ChatScreen.currentDocumentId
       (fst (ChatScreen.fetchLatestDocument (Resolved Samples.wrapped_listing)
                                            now_id now_ts
                                            (ChatScreen.initial 0)))
     = JStr (js "d1").
Proof. repeat split; vm_compute; reflexivity. Qed.

(** C4. When the listing request fails, fetchDocuments of DocumentListScreen
    and of HomeScreen end normally and leave the documents they had: only
    the loading and refreshing flags are cleared. *)
Theorem C4_listing_failure_keeps_documents (error : JsError) :
  (forall s,
      DocumentListScreen.fetchDocuments (Rejected error) s
      = ({| DocumentListScreen.searchText := DocumentListScreen.searchText s;
            DocumentListScreen.selectedFilter := DocumentListScreen.selectedFilter s;
            DocumentListScreen.documents := DocumentListScreen.documents s;
            DocumentListScreen.loading := false;
            DocumentListScreen.refreshing := false |}, Normal tt))
  /\ (forall s,
      HomeScreen.fetchDocuments (Rejected error) s
      = ({| HomeScreen.documents := HomeScreen.documents s;
            HomeScreen.loading := false;
            HomeScreen.refreshing := false;
            HomeScreen.notifications := HomeScreen.notifications s;
            HomeScreen.isNotiModalVisible := HomeScreen.isNotiModalVisible s;
            HomeScreen.showMainNotification := HomeScreen.showMainNotification s |},
         Normal tt)).
Proof. split; intro s; reflexivity. Qed.

Lemma positive_length (d : JsVal) (rest : list JsVal) :
  gt_zero (JNum (Z.of_nat (List.length (d :: rest)))) = Normal true.
Proof.
  reflexivity.
Qed.

Lemma fetchLatestDocument_selects
    (data d : JsVal) (rest : list JsVal) (now_id now_ts : Z)
    (s : ChatScreen.State) :
  get_prop data (js "documents") = Normal (JArr (d :: rest)) ->
  d <> JNull -> d <> JUndefined ->
  exists document_id,
    get_prop d (js "document_id") = Normal document_id
    /\ ChatScreen.currentDocumentId
         (fst (ChatScreen.fetchLatestDocument (Resolved data) now_id now_ts s))
       = document_id.
Proof.
  intros E N1 N2.
  destruct (get_prop_defined (js "document_id") N1 N2) as [document_id Ei].
  destruct (get_prop_defined (js "filename") N1 N2) as [filename Ef].
  exists document_id. split; [exact Ei |].
  unfold ChatScreen.fetchLatestDocument, try_catch, lift.
  cbn [bind eff_monad await]. rewrite E. cbn [truthy].
  rewrite length_of_array, positive_length.
  cbn [get_index nth]. rewrite Ei.
  unfold ChatScreen.setCurrentDocumentId, ChatScreen.setMessages, update.
  rewrite Ef.
  destruct (ToString filename) as [name | e]; reflexivity.
Qed.

(** C5. From a non-empty list of documents the client takes the element at
    index 0 as the most recent one: ChatScreen's fetchLatestDocument sets
    currentDocumentId to docs[0].document_id, and changes nothing when the
    list is empty; HomeScreen's latestDoc is documents[0], and null when the
    list is empty. *)
Theorem C5_latest_document_is_first :
  (forall data d rest now_id now_ts s,
      get_prop data (js "documents") = Normal (JArr (d :: rest)) ->
      d <> JNull -> d <> JUndefined ->
      exists document_id,
        get_prop d (js "document_id") = Normal document_id
        /\ ChatScreen.currentDocumentId
             (fst (ChatScreen.fetchLatestDocument (Resolved data)
                                                  now_id now_ts s))
           = document_id)
  /\ (forall data now_id now_ts s,
      get_prop data (js "documents") = Normal (JArr []) ->
      ChatScreen.fetchLatestDocument (Resolved data) now_id now_ts s
      = (s, Normal tt))
  /\ (forall s d rest,
      HomeScreen.documents s = JArr (d :: rest) ->
      HomeScreen.latestDoc s = Normal d)
  /\ (forall s,
      HomeScreen.documents s = JArr [] ->
      HomeScreen.latestDoc s = Normal JNull).
Proof.
  split; [| split; [| split]].
  - intros. apply fetchLatestDocument_selects with (rest := rest); assumption.
  - intros data now_id now_ts s E.
    unfold ChatScreen.fetchLatestDocument, try_catch, lift.
    cbn [bind eff_monad await]. rewrite E. reflexivity.
  - intros s d rest E. unfold HomeScreen.latestDoc. rewrite E.
    cbn [bind completion_monad]. rewrite length_of_array, positive_length.
    reflexivity.
  - intros s E. unfold HomeScreen.latestDoc. rewrite E. reflexivity.
Qed.

End Listing.

(** * The properties at sample inputs *)

Lemma C1_chat_failure_messages_witness :
  ChatScreen.sendMessageToBackend (host := sample_host)
    (Rejected Samples.timeout_error)
  = Normal (JStr ChatScreen.TIMEOUT_MESSAGE)
  /\ ChatScreen.sendMessageToBackend (host := sample_host)
       (Rejected Samples.not_found_error)
     = Normal (JStr ChatScreen.NOT_FOUND_MESSAGE)
  /\ ChatScreen.sendMessageToBackend (host := sample_host)
       (Rejected Samples.server_error)
     = Normal (JStr ChatScreen.SERVER_ERROR_MESSAGE)
  /\ ChatScreen.sendMessageToBackend (host := sample_host)
       (Rejected Samples.network_error)
     = Normal (JStr (ChatScreen.CONNECTION_ERROR (js "Network Error"))).
Proof.
  split; [| split; [| split]].
  - apply (proj1 (C1_chat_failure_messages (host := sample_host)
                    Samples.timeout_error)).
    reflexivity.
  - apply (proj1 (proj2 (C1_chat_failure_messages (host := sample_host)
                           Samples.not_found_error))).
    + intro E; vm_compute in E; discriminate E.
    + reflexivity.
  - apply (proj1 (proj2 (proj2 (C1_chat_failure_messages (host := sample_host)
                                  Samples.server_error)))).
    + intro E; vm_compute in E; discriminate E.
    + reflexivity.
  - apply (proj1 (proj2 (proj2 (proj2
             (C1_chat_failure_messages (host := sample_host)
                Samples.network_error))))).
    + intro E; vm_compute in E; discriminate E.
    + intro E; discriminate E.
    + intro E; discriminate E.
Defined.

Lemma C5_latest_document_is_first_witness :
  ChatScreen.currentDocumentId
    (fst (ChatScreen.fetchLatestDocument (host := sample_host)
            (Resolved Samples.wrapped_listing) 1700000000000 1700000000000
            (ChatScreen.initial 0)))
  = JStr (js "d1")
  /\ ChatScreen.fetchLatestDocument (host := sample_host)
       (Resolved (JObj [ (js "documents", JArr []) ])) 0 0 (ChatScreen.initial 0)
     = (ChatScreen.initial 0, Normal tt)
  /\ HomeScreen.latestDoc (host := sample_host)
       (fst (HomeScreen.fetchDocuments (host := sample_host)
               (Resolved Samples.wrapped_listing) HomeScreen.initial))
     = Normal Samples.report
  /\ HomeScreen.latestDoc (host := sample_host) HomeScreen.initial
     = Normal JNull.
Proof.
  pose proof (C5_latest_document_is_first (host := sample_host))
    as (Chat & Empty & Home & HomeEmpty).
  split; [| split; [| split]].
  - destruct (Chat Samples.wrapped_listing Samples.report []
                   1700000000000%Z 1700000000000%Z (ChatScreen.initial 0))
      as (document_id & Ei & Ec).
    + reflexivity.
    + discriminate.
    + discriminate.
    + rewrite Ec. vm_compute in Ei. injection Ei as <-. reflexivity.
  - apply Empty. reflexivity.
  - apply Home with (rest := []). vm_compute. reflexivity.
  - apply HomeEmpty. reflexivity.
Defined.

Lemma C6_chat_answer_witness :
  ChatScreen.sendMessageToBackend (host := sample_host)
    (Resolved Samples.answer_body)
  = Normal (JStr (js "2025-03-01"))
  /\ ChatScreen.sendMessageToBackend (host := sample_host)
       (Resolved Samples.response_body)
     = Normal (JStr (js "2025-03-01"))
  /\ ChatScreen.sendMessageToBackend (host := sample_host) (Resolved (JObj []))
     = Normal (JStr ChatScreen.NO_ANSWER)
  /\ (exists s,
        ChatScreen.sendMessageToBackend (host := sample_host)
          (Rejected Samples.network_error) = Normal (JStr s) /\ s <> []).
Proof.
  split; [| split; [| split]].
  - destruct (proj1 (C6_chat_answer (host := sample_host)
                       (Resolved Samples.answer_body))
                    Samples.answer_body eq_refl)
      as (answer & response & Ea & Er & E & _).
    + discriminate.
    + discriminate.
    + rewrite E. vm_compute in Ea. injection Ea as <-. reflexivity.
  - destruct (proj1 (C6_chat_answer (host := sample_host)
                       (Resolved Samples.response_body))
                    Samples.response_body eq_refl)
      as (answer & response & Ea & Er & E & _).
    + discriminate.
    + discriminate.
    + rewrite E. vm_compute in Ea, Er.
      injection Ea as <-. injection Er as <-. reflexivity.
  - destruct (proj1 (C6_chat_answer (host := sample_host) (Resolved (JObj [])))
                    (JObj []) eq_refl)
      as (answer & response & Ea & Er & E & _).
    + discriminate.
    + discriminate.
    + rewrite E. vm_compute in Ea, Er.
      injection Ea as <-. injection Er as <-. reflexivity.
  - apply (proj1 (proj2 (proj2 (proj2
             (C6_chat_answer (host := sample_host)
                (Rejected Samples.network_error)))))
           Samples.network_error eq_refl).
Defined.

(** C6, as stated, fails: a numeric answer is returned as it is, which is
    not a string; and a null body, which has neither field, is not answered
    by the fallback but by a connection-error message. *)
Lemma C6_chat_answer_counterexample :
  ChatScreen.sendMessageToBackend (host := sample_host)
    (Resolved Samples.numeric_answer_body)
  = Normal (JNum 42)
  /\ ~ (exists s,
          ChatScreen.sendMessageToBackend (host := sample_host)
            (Resolved Samples.numeric_answer_body) = Normal (JStr s))
  /\ ChatScreen.sendMessageToBackend (host := sample_host) (Resolved JNull)
     = Normal (JStr (ChatScreen.CONNECTION_ERROR
                       (js "Cannot read property 'answer' of null")))
  /\ ChatScreen.sendMessageToBackend (host := sample_host) (Resolved JNull)
     <> Normal (JStr ChatScreen.NO_ANSWER).
Proof.
  split; [reflexivity | split; [| split; [reflexivity |]]].
  - intros [s E]. vm_compute in E. discriminate E.
  - intro E. vm_compute in E. discriminate E.
Qed.

Lemma C8_status_text_total_witness :
  DocumentListScreen.getStatusText (js "failed") = js "업로드 완료"
  /\ DocumentListScreen.statusBadge (js "failed") <> js "#666".
Proof.
  pose proof (C8_status_text_total (js "failed"))
    as (_ & Default & Badge & _).
  split; [apply Default; reflexivity | exact Badge].
Defined.

Lemma C9_sendMessage_effect_witness :
  ChatScreen.sendMessage_begin (js "   ") 5 5 (ChatScreen.initial 0)
  = (ChatScreen.initial 0, Normal None)
  /\ (exists reply s3,
        ChatScreen.sendMessage (host := sample_host) (js " hi ") 5 5
          (Resolved Samples.answer_body) 6 6 (ChatScreen.initial 0)
        = (s3, Normal tt)
        /\ ChatScreen.messages s3
           = ChatScreen.messages (ChatScreen.initial 0)
             ++ [ {| ChatScreen.id := of_Z 5;
                     ChatScreen.text := JStr (js "hi");
                     ChatScreen.isUser := true;
                     ChatScreen.timestamp := 5 |}; reply ]
        /\ ChatScreen.isUser reply = false).
Proof.
  split.
  - apply (proj1 (C9_sendMessage_effect (host := sample_host)
                    (js "   ") 5 5 (ChatScreen.initial 0))).
    reflexivity.
  - destruct (proj2 (C9_sendMessage_effect (host := sample_host)
                       (js " hi ") 5 5 (ChatScreen.initial 0)))
      as (userMessage & s1 & B & M1 & U & T & _ & Whole).
    + reflexivity.
    + destruct (Whole (Resolved Samples.answer_body) 6%Z 6%Z)
        as (reply & s3 & E & M & R).
      exists reply, s3. split; [exact E |]. split; [| exact R].
      rewrite M. vm_compute in B. injection B as B. rewrite <- B in M1.
      vm_compute in M1. injection M1 as <-. reflexivity.
Defined.

Lemma C10_match_index_witness :
  (exists next prev,
      ChatScreen.handleNextMatch Samples.searching = (next, Normal tt)
      /\ ChatScreen.handlePrevMatch Samples.searching = (prev, Normal tt)
      /\ ChatScreen.currentMatchIndex next = 0%Z
      /\ ChatScreen.currentMatchIndex prev = 1%Z)
  /\ ChatScreen.handleNextMatch (ChatScreen.initial 0)
     = (ChatScreen.initial 0, Normal tt).
Proof.
  split.
  - destruct (proj1 (C10_match_index (host := sample_host) Samples.searching))
      as (next & prev & En & Ep & _ & _ & In & Ip & _).
    + discriminate.
    + vm_compute. discriminate.
    + exists next, prev. split; [exact En |]. split; [exact Ep |].
      split; [rewrite In | rewrite Ip]; reflexivity.
  - apply (proj1 (proj2 (C10_match_index (host := sample_host)
                           (ChatScreen.initial 0)))).
    reflexivity.
Defined.

(** * Further properties of the screens *)

(** ** The conversation of ChatScreen *)

Section ChatConversation.
Context {host : Host}.

Import ChatScreen.

Lemma filterM_normal {A : Type} (f : A -> completion bool) (g : A -> bool)
    (l : list A) :
  (forall x, In x l -> f x = Normal (g x)) ->
  filterM f l = Normal (filter g l).
Proof.
  induction l as [|x l IH]; intro F; [reflexivity |].
  cbn [filterM bind completion_monad ret filter].
  rewrite (F x (or_introl eq_refl)), IH by (intros y Y; apply F; right; exact Y).
  destruct (g x); reflexivity.
Qed.

Lemma filterM_throw {A : Type} (f : A -> completion bool) (e : JsError)
    (l : list A) :
  (forall x, In x l -> (exists b, f x = Normal b) \/ f x = Throw e) ->
  (exists x, In x l /\ f x = Throw e) ->
  filterM f l = Throw e.
Proof.
  induction l as [|x l IH]; intros F (y & Y & T); [destruct Y |].
  cbn [filterM bind completion_monad ret].
  destruct (F x (or_introl eq_refl)) as [[b B] | B]; rewrite B; [| reflexivity].
  rewrite IH; [reflexivity | intros z Z; apply F; right; exact Z |].
  destruct Y as [-> | Y]; [congruence |]. exists y. auto.
Qed.

Lemma searchEffect_messages (s s' : State) (r : completion unit) :
  searchEffect s = (s', r) -> messages s' = messages s.
Proof.
  unfold searchEffect, read, lift. cbn [bind eff_monad].
  destruct (JsString.eqb (trim (searchText s)) []).
  - intro E. injection E as <- _. reflexivity.
  - destruct (filterM _ (messages s)); intro E; injection E as <- _; reflexivity.
Qed.

Lemma fetchLatestDocument_messages (o : Outcome) (now_id now_ts : Z)
    (s : State) :
  exists added,
    messages (fst (fetchLatestDocument o now_id now_ts s)) = messages s ++ added
    /\ (List.length added <= 1)%nat.
Proof.
  assert (Same : exists added, messages s = messages s ++ added
                               /\ (List.length added <= 1)%nat).
  { exists []. rewrite app_nil_r. auto. }
  unfold fetchLatestDocument, try_catch, lift.
  cbn [bind eff_monad].
  destruct (await o) as [data |]; [| exact Same].
  destruct (get_prop data (js "documents")) as [d |]; [| exact Same].
  destruct (get_prop _ (js "length")) as [len |]; [| exact Same].
  destruct (gt_zero len) as [[|] |]; try exact Same.
  destruct (get_index _ 0) as [latestDoc |]; [| exact Same].
  destruct (get_prop latestDoc (js "document_id")) as [document_id |];
    [| exact Same].
  unfold setCurrentDocumentId, setMessages, update.
  destruct (get_prop latestDoc (js "filename")) as [filename |];
    [| exact Same].
  destruct (ToString filename); [| exact Same].
  eexists [_]. split; [reflexivity | auto].
Qed.

Lemma sendMessage_begin_messages (textToSend : jsstring) (now_id now_ts : Z)
    (s : State) :
  exists added,
    messages (fst (sendMessage_begin textToSend now_id now_ts s))
    = messages s ++ added
    /\ (List.length added <= 1)%nat.
Proof.
  unfold sendMessage_begin.
  destruct (negb (truthy (JStr (trim textToSend)))).
  - exists []. rewrite app_nil_r. auto.
  - eexists [_]. split; [reflexivity | auto].
Qed.

Ltac unchanged :=
  exists []; rewrite app_nil_r; split; [reflexivity | simpl; lia].

Lemma step_messages (s s' : State) :
  step s s' ->
  exists added,
    messages s' = messages s ++ added /\ (List.length added <= 1)%nat.
Proof.
  intro T.
  destruct T as [o n1 n2 s | s | t s | s s' E | s | s | s | t s
                 | textToSend n1 n2 s | o n1 n2 s].
  - apply fetchLatestDocument_messages.
  - unchanged.
  - unchanged.
  - rewrite (searchEffect_messages s E). unchanged.
  - unfold handlePrevMatch, read. cbn [bind eff_monad].
    destruct (_ =? 0)%Z; unchanged.
  - unfold handleNextMatch, read. cbn [bind eff_monad].
    destruct (_ =? 0)%Z; unchanged.
  - unchanged.
  - unchanged.
  - apply sendMessage_begin_messages.
  - destruct (sendMessage_resume_appends o n1 n2 s)
      as (reply & s3 & E & M & _).
    rewrite E. exists [reply]. auto.
Qed.

(** The conversation only grows: an event adds at most one message at the
    end of the list and changes none, so the greeting the screen starts
    with stays the first message. *)
Theorem messages_append_only :
  (forall s s', step s s' ->
     exists added,
       messages s' = messages s ++ added /\ (List.length added <= 1)%nat)
  /\ (forall s, reachable s ->
      exists now later, messages s = messages (initial now) ++ later).
Proof.
  split; [exact step_messages |].
  induction 1 as [now | s s' R (now & later & IH) T].
  - exists now, []. rewrite app_nil_r. reflexivity.
  - destruct (step_messages T) as (added & E & _).
    exists now, (later ++ added). rewrite E, IH, app_assoc. reflexivity.
Qed.

(** When every message holds a string, the search effect ends normally:
    on a blank search text it empties the found ids and keeps the index;
    otherwise the found ids are the ids of the messages whose text contains
    the search text, and the index is 0. *)
Theorem search_finds_matching_messages (s : State) :
  Forall (fun m => exists t, text m = JStr t) (messages s) ->
  exists s',
    searchEffect s = (s', Normal tt)
    /\ (forallb is_white_space (searchText s) = true ->
        foundIds s' = [] /\ currentMatchIndex s' = currentMatchIndex s)
    /\ (forallb is_white_space (searchText s) = false ->
        currentMatchIndex s' = 0%Z
        /\ forall i,
             In i (foundIds s') <->
             exists m t, In m (messages s) /\ id m = i /\ text m = JStr t
                         /\ includes t (searchText s) = true)
    /\ (List.length (foundIds s') <= List.length (messages s))%nat.
Proof.
  intro Texts.
  pose (g := fun m => match text m with
                      | JStr t => includes t (searchText s)
                      | _ => false
                      end).
  assert (F : filterM (fun msg => value_includes (text msg) (searchText s))
                      (messages s) = Normal (filter g (messages s))).
  { apply filterM_normal. intros m M.
    rewrite Forall_forall in Texts. destruct (Texts m M) as [t E].
    unfold g. rewrite E. reflexivity. }
  unfold searchEffect, read, lift. cbn [bind eff_monad].
  destruct (JsString.eqb (trim (searchText s)) []) eqn:B.
  - apply jsstring_eqb_eq, trim_nil in B.
    eexists. split; [reflexivity |]. cbn.
    split; [auto |]. split; [congruence | lia].
  - assert (W : forallb is_white_space (searchText s) = false).
    { destruct (forallb is_white_space (searchText s)) eqn:W; auto.
      apply trim_nil in W. rewrite W in B. discriminate B. }
    rewrite F. eexists. split; [reflexivity |]. cbn.
    split; [congruence |]. split.
    + intros _. split; [reflexivity |]. intro i.
      rewrite in_map_iff. split.
      * intros (m & <- & M). apply filter_In in M. destruct M as [M G].
        unfold g in G. destruct (text m) eqn:E; try discriminate G.
        exists m, s0. auto.
      * intros (m & t & M & <- & E & I). exists m. split; [reflexivity |].
        apply filter_In. split; [exact M |]. unfold g. rewrite E. exact I.
    + rewrite length_map. apply filter_length_le.
Qed.

(** A message whose text is neither a string nor an array makes every search
    for a text that is not blank throw a TypeError, with nothing set. *)
Theorem search_throws_on_non_text (s : State) (m : ChatMessage) :
  forallb is_white_space (searchText s) = false ->
  In m (messages s) ->
  (forall t, text m <> JStr t) -> (forall l, text m <> JArr l) ->
  searchEffect s = (s, Throw (TypeError (NotAFunction (js "includes")))).
Proof.
  intros W M NotStr NotArr.
  unfold searchEffect, read, lift. cbn [bind eff_monad].
  destruct (JsString.eqb (trim (searchText s)) []) eqn:B.
  { apply jsstring_eqb_eq, trim_nil in B. congruence. }
  rewrite (@filterM_throw _ _ (TypeError (NotAFunction (js "includes")))).
  - reflexivity.
  - intros x _. destruct (text x); cbn [value_includes]; eauto.
  - exists m. split; [exact M |].
    destruct (text m) eqn:E; cbn [value_includes]; try reflexivity.
    + elim (NotStr s0). reflexivity.
    + elim (NotArr items). reflexivity.
Qed.

End ChatConversation.

(** ** What ChatScreen shows *)

Section ChatRendering.
Context {host : Host}.

Import ChatScreen.

(** The message shown as the current match is one of the messages shown as
    matches. *)
Theorem current_match_is_a_match (s : State) (msg : ChatMessage) :
  isCurrentMatch s msg = true -> isMatch s msg = true.
Proof.
  unfold isCurrentMatch, isMatch, currentMatch, option_is.
  destruct (0 <=? currentMatchIndex s)%Z; [| discriminate].
  destruct (nth_error (foundIds s) (Z.to_nat (currentMatchIndex s)))
    as [found |] eqn:E; [| discriminate].
  intro Q. apply existsb_exists. exists found.
  split; [exact (nth_error_In _ _ E) | exact Q].
Qed.


Lemma sendMessage_begin_sends (textToSend : jsstring) (now_id now_ts : Z)
    (s : State) :
  forallb is_white_space textToSend = false ->
  sendMessage_begin textToSend now_id now_ts s
  = ({| isSearchMode := isSearchMode s; searchText := searchText s;
        foundIds := foundIds s; currentMatchIndex := currentMatchIndex s;
        message := [];
        messages := messages s
                    ++ [ {| id := of_Z now_id; text := JStr (trim textToSend);
                            isUser := true; timestamp := now_ts |} ];
        isTyping := true;
        currentDocumentId := currentDocumentId s |},
     Normal (Some (sendMessageToBackend_request (currentDocumentId s)
                                                (trim textToSend)))).
Proof.
  intro W. unfold sendMessage_begin. rewrite trim_blank_falsy, W. reflexivity.
Qed.

(** Two questions sent one after the other, before any answer: the first
    answer to arrive ends the typing indicator, while the other answer is
    still to come. *)
Theorem typing_ends_with_first_reply
    (text1 text2 : jsstring) (n1 n2 n3 n4 n5 n6 : Z) (o : Outcome) (s : State) :
  forallb is_white_space text1 = false ->
  forallb is_white_space text2 = false ->
  let s1 := fst (sendMessage_begin text1 n1 n2 s) in
  let s2 := fst (sendMessage_begin text2 n3 n4 s1) in
  let s3 := fst (sendMessage_resume o n5 n6 s2) in
  isTyping s2 = true
  /\ isTyping s3 = false
  /\ exists question1 question2 reply,
       messages s3 = messages s ++ [question1; question2; reply]
       /\ text question1 = JStr (trim text1) /\ isUser question1 = true
       /\ text question2 = JStr (trim text2) /\ isUser question2 = true
       /\ isUser reply = false.
Proof.
  intros W1 W2 s1 s2 s3. subst s1 s2 s3.
  rewrite (sendMessage_begin_sends text1 n1 n2 s W1). cbn [fst].
  rewrite (sendMessage_begin_sends text2 n3 n4 _ W2). cbn [fst].
  match goal with
  | |- context [sendMessage_resume o n5 n6 ?st] =>
    destruct (sendMessage_resume_appends o n5 n6 st)
      as (reply & s3 & E & M & U & T & _)
  end.
  rewrite E. cbn [fst isTyping messages] in *.
  split; [reflexivity |]. split; [exact T |].
  eexists _, _, reply. rewrite M, <- !app_assoc.
  split; [reflexivity |]. repeat split; auto.
Qed.

(** The chat request names the document selected on mount: the first one of
    the listing when there is one, and null when the listing failed or has
    not come back yet; after selectDocument it names the document selected
    there. *)
Theorem chat_request_names_latest_document
    (textToSend : jsstring) (n1 n2 n3 n4 : Z) (s : State) :
  forallb is_white_space textToSend = false ->
  (forall data d rest,
      get_prop data (js "documents") = Normal (JArr (d :: rest)) ->
      d <> JNull -> d <> JUndefined ->
      exists document_id,
        get_prop d (js "document_id") = Normal document_id
        /\ snd (sendMessage_begin textToSend n3 n4
                  (fst (fetchLatestDocument (Resolved data) n1 n2 s)))
           = Normal (Some (sendMessageToBackend_request document_id
                                                        (trim textToSend))))
  /\ (forall error,
        snd (sendMessage_begin textToSend n3 n4
               (fst (fetchLatestDocument (Rejected error) n1 n2 s)))
        = Normal (Some (sendMessageToBackend_request (currentDocumentId s)
                                                     (trim textToSend))))
  /\ snd (sendMessage_begin textToSend n3 n4 (initial n1))
     = Normal (Some (sendMessageToBackend_request JNull (trim textToSend)))
  /\ (forall documentId filename,
        snd (sendMessage_begin textToSend n3 n4
               (fst (selectDocument documentId filename n1 n2 s)))
        = Normal (Some (sendMessageToBackend_request (JStr documentId)
                                                     (trim textToSend)))).
Proof.
  intro W. split; [| split; [| split]].
  - intros data d rest E N1 N2.
    destruct (@fetchLatestDocument_selects host data d rest n1 n2 s E N1 N2)
      as (document_id & Ei & Ec).
    exists document_id. split; [exact Ei |].
    rewrite (sendMessage_begin_sends textToSend n3 n4 _ W). cbn [snd].
    rewrite Ec. reflexivity.
  - intro error. rewrite (sendMessage_begin_sends textToSend n3 n4 _ W). reflexivity.
  - rewrite (sendMessage_begin_sends textToSend n3 n4 _ W). reflexivity.
  - intros documentId filename.
    rewrite (sendMessage_begin_sends textToSend n3 n4 _ W). reflexivity.
Qed.


Lemma two_digits_below_60 :
  forallb (fun n =>
             JsString.eqb (padStart2 (of_Z (Z.of_nat n)))
                          [48 + N.of_nat n / 10; 48 + N.of_nat n mod 10]%N)
          (seq 0 60) = true.
Proof. vm_compute. reflexivity. Qed.

Lemma padStart2_two_digits (n : Z) :
  (0 <= n < 60)%Z ->
  padStart2 (of_Z n) = [48 + Z.to_N n / 10; 48 + Z.to_N n mod 10]%N.
Proof.
  intro B. pose proof two_digits_below_60 as A.
  rewrite forallb_forall in A.
  specialize (A (Z.to_nat n)).
  rewrite Z2Nat.id, Z_nat_N in A by lia.
  apply jsstring_eqb_eq, A, in_seq. lia.
Qed.

(** formatTime writes the hour and the minute with two digits each, around
    a colon: five code units, whatever the time of day. *)
Theorem formatTime_two_digits (hours minutes : Z) :
  (0 <= hours < 24)%Z -> (0 <= minutes < 60)%Z ->
  formatTime hours minutes
  = [48 + Z.to_N hours / 10; 48 + Z.to_N hours mod 10; 58;
     48 + Z.to_N minutes / 10; 48 + Z.to_N minutes mod 10]%N.
Proof.
  intros Bh Bm. unfold formatTime.
  rewrite !padStart2_two_digits by lia. reflexivity.
Qed.

End ChatRendering.

(** ** The cards of DocumentListScreen *)

(** Case analysis on a status string: one case per value a [switch] or a
    condition of the screens names, and the case of any other string. *)
Ltac status_case s lit :=
  let E := fresh "E" in
  destruct (JsString.eqb s lit) eqn:E;
  [ apply jsstring_eqb_eq in E; subst s; vm_compute;
    repeat split; intros; try reflexivity; try discriminate; try congruence
  | ].

Ltac status_cases s :=
  status_case s (js "completed"); status_case s (js "analyzed");
  status_case s (js "분석완료"); status_case s (js "분석 완료");
  status_case s (js "analyzing"); status_case s (js "reanalyzing");
  status_case s (js "분석중"); status_case s (js "분석 중");
  status_case s (js "uploaded"); status_case s (js "업로드완료");
  status_case s (js "업로드 완료").

Section DocumentCards.

Import DocumentListScreen.

Ltac other_status :=
  unfold cardBadge, statusText, statusIcon, showsAnalyzeButton, cardPress,
    getStatusText, getStatusColor, getStatusIcon, one_of, strict_eq_str;
  cbn [existsb];
  repeat match goal with
         | E : JsString.eqb _ _ = false |- _ => rewrite E; clear E
         end;
  vm_compute;
  repeat split; intros; try reflexivity; try discriminate; try congruence.

(** On a card, the analyze button is shown exactly when a press on the card
    starts an analysis, and then the badge reads '업로드 완료'; a press
    answers 'already analyzed' only under a badge '분석 완료' and the icon
    ✅; the badge is green exactly under the icon ✅, and orange only under
    the icon 🔄. *)
Theorem card_controls_agree (status : JsVal) :
  (showsAnalyzeButton status = true <-> cardPress status = StartAnalysis)
  /\ (cardPress status = StartAnalysis -> statusText status = js "업로드 완료")
  /\ (cardPress status = AlreadyAnalyzed ->
      statusText status = js "분석 완료" /\ statusIcon status = js "✅")
  /\ (cardBadge status = js "#4CAF50" <-> statusIcon status = js "✅")
  /\ (cardBadge status = js "#FF9800" -> statusIcon status = js "🔄").
Proof.
  destruct status as [| | b | n | s | items | fields];
    try (vm_compute;
         repeat split; intros; try reflexivity; try discriminate; congruence).
  status_cases s. other_status.
Qed.

Lemma statusText_labels (status : JsVal) :
  statusText status = js "분석 완료"
  \/ statusText status = js "분석 중"
  \/ statusText status = js "업로드 완료".
Proof.
  destruct status as [| | b | n | s | items | fields];
    try (right; right; reflexivity).
  unfold statusText, getStatusText.
  destruct (one_of s _); [left; reflexivity |].
  destruct (one_of s _); [right; left; reflexivity |].
  destruct (one_of s _); right; right; reflexivity.
Qed.

End DocumentCards.

(** ** The list of DocumentListScreen *)

Section DocumentListing.
Context {host : Host} {casing : CaseMapping}.

Import DocumentListScreen.

Lemma filterM_cons_normal {A : Type} (f : A -> completion bool) (x : A)
    (l r : list A) :
  filterM f (x :: l) = Normal r ->
  exists b r', f x = Normal b /\ filterM f l = Normal r'
               /\ r = if b then x :: r' else r'.
Proof.
  cbn [filterM bind completion_monad ret].
  destruct (f x) as [b |]; [| discriminate].
  destruct (filterM f l) as [r' |]; [| discriminate].
  intro E. injection E as <-. eauto.
Qed.

Lemma filterM_In {A : Type} (f : A -> completion bool) (l r : list A) :
  filterM f l = Normal r ->
  forall x, In x r -> In x l /\ f x = Normal true.
Proof.
  revert r. induction l as [|y l IH]; intros r E x X.
  - injection E as <-. destruct X.
  - destruct (filterM_cons_normal f y l E) as (b & r' & Fy & Fl & ->).
    destruct b.
    + destruct X as [<- | X]; [split; [left; reflexivity | exact Fy] |].
      destruct (IH r' Fl x X). split; [right |]; assumption.
    + destruct (IH r' Fl x X). split; [right |]; assumption.
Qed.

Lemma matchesSearch_filename (text : jsstring) (doc : JsVal) :
  matchesSearch text doc = Normal true ->
  exists name, get_prop doc (js "filename") = Normal (JStr name)
               /\ includes (toLowerCase name) (toLowerCase text) = true.
Proof.
  unfold matchesSearch. cbn [bind completion_monad ret].
  destruct (get_prop doc (js "filename")) as [filename |]; [| discriminate].
  destruct filename; try discriminate.
  intro E. injection E as E. eauto.
Qed.

Lemma keepsDocument_matches (s : State) (doc : JsVal) :
  keepsDocument s doc = Normal true ->
  matchesSearch (searchText s) doc = Normal true.
Proof.
  unfold keepsDocument. cbn [bind completion_monad ret].
  destruct (matchesSearch (searchText s) doc) as [[|] |]; try discriminate;
    [reflexivity |].
  destruct (negb _); [destruct (get_prop doc (js "status")) |];
    discriminate.
Qed.

Lemma filter_all {A : Type} (l : list A) : filter (fun _ => true) l = l.
Proof. induction l as [|x l IH]; [reflexivity |]. cbn. f_equal. exact IH. Qed.

Lemma includes_empty (t : jsstring) : includes t [] = true.
Proof. destruct t; reflexivity. Qed.

(** Every listed document is one of the documents, with a string as its
    filename that contains the search text, case aside: a document without
    a filename is never listed. With an empty search text and the filter
    '전체', documents whose filenames are strings are all listed, in their
    order. *)
Theorem listed_documents_have_a_filename (s : State) (items : list JsVal) :
  documents s = JArr items ->
  (forall listed, getFilteredDocuments s = Normal listed ->
     forall doc, In doc listed ->
       In doc items
       /\ exists name,
            get_prop doc (js "filename") = Normal (JStr name)
            /\ includes (toLowerCase name) (toLowerCase (searchText s)) = true)
  /\ (searchText s = [] -> selectedFilter s = js "전체" ->
      Forall (fun doc => exists name,
                get_prop doc (js "filename") = Normal (JStr name)) items ->
      getFilteredDocuments s = Normal items).
Proof.
  intro D. unfold getFilteredDocuments. rewrite D. cbn [array_filter]. split.
  - intros listed E doc L.
    destruct (filterM_In _ _ E doc L) as [I K].
    split; [exact I |].
    apply matchesSearch_filename, keepsDocument_matches, K.
  - intros S F Names.
    rewrite (@filterM_normal _ _ (fun _ => true)).
    + f_equal. apply filter_all.
    + intros doc I. rewrite Forall_forall in Names.
      destruct (Names doc I) as [name N].
      unfold keepsDocument, matchesSearch.
      cbn [bind completion_monad ret].
      rewrite N, S, F, toLowerCase_empty, includes_empty. reflexivity.
Qed.

Lemma matchesSearch_defined (text : jsstring) (doc : JsVal) (b : bool) :
  matchesSearch text doc = Normal b ->
  exists status, get_prop doc (js "status") = Normal status.
Proof.
  destruct doc; try discriminate; cbn [get_prop]; eauto.
Qed.

Lemma category_labels :
  JsString.eqb (js "분석 완료") (js "전체") = false
  /\ JsString.eqb (js "분석 중") (js "전체") = false
  /\ JsString.eqb (js "업로드 완료") (js "전체") = false
  /\ JsString.eqb (js "분석 완료") (js "분석 중") = false
  /\ JsString.eqb (js "분석 완료") (js "업로드 완료") = false
  /\ JsString.eqb (js "분석 중") (js "분석 완료") = false
  /\ JsString.eqb (js "분석 중") (js "업로드 완료") = false
  /\ JsString.eqb (js "업로드 완료") (js "분석 완료") = false
  /\ JsString.eqb (js "업로드 완료") (js "분석 중") = false.
Proof. repeat split; vm_compute; reflexivity. Qed.

Lemma eqb_refl (t : jsstring) : JsString.eqb t t = true.
Proof. apply jsstring_eqb_eq. reflexivity. Qed.

(** Under which of the three categories a document kept by '전체' falls. *)
Lemma keepsDocument_category (s : State) (doc : JsVal) (b : bool) :
  keepsDocument (fst (setSelectedFilter (js "전체") s)) doc = Normal b ->
  exists b1 b2 b3,
    keepsDocument (fst (setSelectedFilter (js "분석 완료") s)) doc = Normal b1
    /\ keepsDocument (fst (setSelectedFilter (js "분석 중") s)) doc = Normal b2
    /\ keepsDocument (fst (setSelectedFilter (js "업로드 완료") s)) doc
       = Normal b3
    /\ ((b1, b2, b3) = (b, false, false)
        \/ (b1, b2, b3) = (false, b, false)
        \/ (b1, b2, b3) = (false, false, b)).
Proof.
  destruct category_labels as (A1 & A2 & A3 & D12 & D13 & D21 & D23 & D31 & D32).
  unfold keepsDocument, setSelectedFilter, update.
  cbn [fst searchText selectedFilter bind completion_monad ret].
  destruct (matchesSearch (searchText s) doc) as [ms |] eqn:M; [| discriminate].
  destruct (matchesSearch_defined _ _ M) as [status St].
  rewrite eqb_refl, A1, A2, A3, St. cbn [negb].
  intro E. injection E as <-. rewrite andb_true_r.
  exists (ms && JsString.eqb (statusText status) (js "분석 완료")),
         (ms && JsString.eqb (statusText status) (js "분석 중")),
         (ms && JsString.eqb (statusText status) (js "업로드 완료")).
  repeat (split; [reflexivity |]).
  destruct (statusText_labels status) as [L | [L | L]]; rewrite L.
  - left. rewrite eqb_refl, D12, D13, andb_true_r, andb_false_r. reflexivity.
  - right. left.
    rewrite eqb_refl, D21, D23, andb_true_r, andb_false_r. reflexivity.
  - right. right.
    rewrite eqb_refl, D31, D32, andb_true_r, andb_false_r. reflexivity.
Qed.

Lemma filterM_categories (s : State) (items listed : list JsVal) :
  filterM (keepsDocument (fst (setSelectedFilter (js "전체") s))) items
  = Normal listed ->
  exists done analyzing uploaded,
    filterM (keepsDocument (fst (setSelectedFilter (js "분석 완료") s))) items
    = Normal done
    /\ filterM (keepsDocument (fst (setSelectedFilter (js "분석 중") s))) items
       = Normal analyzing
    /\ filterM (keepsDocument (fst (setSelectedFilter (js "업로드 완료") s)))
               items
       = Normal uploaded
    /\ List.length listed
       = (List.length done + List.length analyzing + List.length uploaded)%nat
    /\ forall doc, In doc listed <->
                   In doc done \/ In doc analyzing \/ In doc uploaded.
Proof.
  revert listed. induction items as [|x items IH]; intros listed E.
  - injection E as <-. exists [], [], []. repeat split; auto; tauto.
  - destruct (filterM_cons_normal _ x items E) as (b & rest & K & F & ->).
    destruct (IH rest F) as (done & analyzing & uploaded & F1 & F2 & F3 & L & I).
    destruct (keepsDocument_category s x K)
      as (b1 & b2 & b3 & K1 & K2 & K3 & Which).
    cbn [filterM bind completion_monad ret].
    rewrite K1, K2, K3, F1, F2, F3.
    eexists _, _, _. repeat (split; [reflexivity |]).
    destruct Which as [Q | [Q | Q]]; injection Q as -> -> ->;
      destruct b; cbn [List.length In]; (split; [lia |]);
      intro doc; rewrite ?I; cbn [In]; tauto.
Qed.

(** The three status filters split what the filter '전체' lists: whenever
    '전체' can be listed, so can '분석 완료', '분석 중' and '업로드 완료';
    a document is listed under '전체' exactly when it is listed under one of
    the three, and the three lists together are as long as the one of
    '전체'. *)
Theorem status_filters_partition (s : State) (listed : list JsVal) :
  getFilteredDocuments (fst (setSelectedFilter (js "전체") s)) = Normal listed ->
  exists done analyzing uploaded,
    getFilteredDocuments (fst (setSelectedFilter (js "분석 완료") s))
    = Normal done
    /\ getFilteredDocuments (fst (setSelectedFilter (js "분석 중") s))
       = Normal analyzing
    /\ getFilteredDocuments (fst (setSelectedFilter (js "업로드 완료") s))
       = Normal uploaded
    /\ List.length listed
       = (List.length done + List.length analyzing + List.length uploaded)%nat
    /\ forall doc, In doc listed <->
                   In doc done \/ In doc analyzing \/ In doc uploaded.
Proof.
  unfold getFilteredDocuments.
  cbn [setSelectedFilter update fst documents].
  destruct (documents s); try discriminate.
  cbn [array_filter]. apply filterM_categories.
Qed.

(** A body of the listing that is an object without a documents field is
    stored as the list of documents as it is, and the list cannot be
    rendered then: getFilteredDocuments throws a TypeError. HomeScreen
    stores the empty list for the same body. *)
Theorem object_body_breaks_the_list
    (fields : list (jsstring * JsVal)) (s : State) (home : HomeScreen.State) :
  truthy (lookup (js "documents") fields) = false ->
  let s' := fst (fetchDocuments (Resolved (JObj fields)) s) in
  documents s' = JObj fields
  /\ getFilteredDocuments s' = Throw (TypeError (NotAFunction (js "filter")))
  /\ HomeScreen.documents
       (fst (HomeScreen.fetchDocuments (Resolved (JObj fields)) home))
     = JArr [].
Proof.
  intro F.
  assert (D : documents (fst (fetchDocuments (Resolved (JObj fields)) s))
              = JObj fields).
  { unfold fetchDocuments, try_finally, try_catch, lift, listedDocuments,
      setDocuments, setLoading, setRefreshing, update.
    cbn [bind eff_monad completion_monad await get_prop ret].
    rewrite F. reflexivity. }
  cbn zeta. split; [exact D | split].
  - unfold getFilteredDocuments. rewrite D. reflexivity.
  - unfold HomeScreen.fetchDocuments, try_finally, try_catch, lift,
      HomeScreen.listedDocuments, HomeScreen.setDocuments,
      HomeScreen.setLoading, HomeScreen.setRefreshing, update.
    cbn [bind eff_monad completion_monad await get_prop ret].
    rewrite F. reflexivity.
Qed.

(** Once confirmed, an analysis ends in exactly one dialog, whatever the
    request does: '분석 완료!' with the summary of the response (or a fixed
    text when it has none), whose button reloads the list, or '분석 실패'
    with the message of the error, which reloads nothing. *)
Theorem analysis_ends_in_one_dialog (o : Outcome) :
  exists alert,
    analyzeDocument_confirmed o = Normal alert
    /\ ((alert_title alert = js "분석 완료!" /\ alert_reloads alert = true)
        \/ (alert_title alert = js "분석 실패" /\ alert_reloads alert = false))
    /\ (forall error, o = Rejected error ->
        alert = {| alert_title := js "분석 실패";
                   alert_message := js "분석 중 오류가 발생했습니다: "
                                    ++ err_message error;
                   alert_reloads := false |})
    /\ (forall data summary, o = Resolved data ->
        get_prop data (js "summary") = Normal (JStr summary) ->
        alert_title alert = js "분석 완료!"
        /\ alert_message alert
           = js "분석이 완료되었습니다:" ++ [10]%N
             ++ (if JsString.eqb summary [] then js "분석 결과를 확인하세요."
                 else summary)).
Proof.
  unfold analyzeDocument_confirmed.
  destruct o as [data | error]; cbn [await bind completion_monad catching ret].
  - destruct (get_prop data (js "summary")) as [summary |] eqn:S;
      cbn [catching].
    + destruct (ToString (if truthy summary then summary else _))
        as [shown |] eqn:T; cbn [catching].
      * eexists. split; [reflexivity |]. split; [left; split; reflexivity |].
        split; [discriminate |].
        intros data' summary' Q S'. injection Q as <-.
        rewrite S in S'. injection S' as ->.
        split; [reflexivity |]. cbn [alert_message].
        cbn [truthy] in T.
        destruct (JsString.eqb summary' []); cbn [negb ToString] in T;
          injection T as <-; reflexivity.
      * eexists. split; [reflexivity |]. split; [right; split; reflexivity |].
        split; [discriminate |].
        intros data' summary' Q S'. injection Q as <-.
        rewrite S in S'. injection S' as ->.
        cbn [truthy] in T.
        destruct (JsString.eqb summary' []); discriminate T.
    + eexists. split; [reflexivity |]. split; [right; split; reflexivity |].
      split; [discriminate |].
      intros data' summary' Q S'. injection Q as <-. congruence.
  - eexists. split; [reflexivity |]. split; [right; split; reflexivity |].
    split; [| discriminate].
    intros error' Q. injection Q as <-. reflexivity.
Qed.

End DocumentListing.

(** ** HomeScreen *)

Section HomeBadges.

Import HomeScreen.

(** The badge of a recent document has the colour of the label it shows:
    getStatusColor gives a status and the label getStatusText shows for it
    the same colour. *)
Theorem badge_colour_of_label (status : jsstring) :
  getStatusColor (getStatusText status) = getStatusColor status.
Proof.
  status_cases status.
  unfold getStatusText, one_of. cbn [existsb].
  repeat match goal with
         | E : JsString.eqb _ _ = false |- _ => rewrite E
         end.
  cbn [orb].
  unfold getStatusColor, one_of. cbn [existsb].
  repeat match goal with
         | E : JsString.eqb _ _ = false |- _ => rewrite E
         end.
  reflexivity.
Qed.

(** formatDate shows a date less than a week old relative to the present:
    '방금 전' below one minute, also for a date in the future; 1 to 59
    minutes below an hour; 1 to 23 hours below a day; 1 to 6 days below a
    week. An older or an invalid date is left to toLocaleDateString. *)
Theorem formatDate_relative_ranges (now : Z) (time : option Z) :
  (forall t, time = Some t -> (now - t < 60000)%Z ->
     formatDate_relative now time = Some (js "방금 전"))
  /\ (forall t, time = Some t -> (60000 <= now - t < 3600000)%Z ->
      exists minutes,
        formatDate_relative now time = Some (of_Z minutes ++ js "분 전")
        /\ (1 <= minutes <= 59)%Z
        /\ (minutes * 60000 <= now - t < (minutes + 1) * 60000)%Z)
  /\ (forall t, time = Some t -> (3600000 <= now - t < 86400000)%Z ->
      exists hours,
        formatDate_relative now time = Some (of_Z hours ++ js "시간 전")
        /\ (1 <= hours <= 23)%Z
        /\ (hours * 3600000 <= now - t < (hours + 1) * 3600000)%Z)
  /\ (forall t, time = Some t -> (86400000 <= now - t < 604800000)%Z ->
      exists days,
        formatDate_relative now time = Some (of_Z days ++ js "일 전")
        /\ (1 <= days <= 6)%Z
        /\ (days * 86400000 <= now - t < (days + 1) * 86400000)%Z)
  /\ (forall t, time = Some t -> (604800000 <= now - t)%Z ->
      formatDate_relative now time = None)
  /\ (time = None -> formatDate_relative now time = None).
Proof.
  assert (Lt : forall a b : Z, (a < b)%Z -> (a <? b)%Z = true)
    by (intros; apply Z.ltb_lt; assumption).
  assert (Ge : forall a b : Z, (b <= a)%Z -> (a <? b)%Z = false)
    by (intros; apply Z.ltb_ge; assumption).
  repeat split.
  - intros t -> B. unfold formatDate_relative. cbn zeta.
    rewrite Lt; [reflexivity |].
    apply Z.div_lt_upper_bound; lia.
  - intros t -> B. unfold formatDate_relative. cbn zeta.
    exists ((now - t) / 60000)%Z.
    pose proof (Z.div_le_lower_bound (now - t) 60000 1 ltac:(lia) ltac:(lia)).
    pose proof (Z.div_lt_upper_bound (now - t) 60000 60 ltac:(lia) ltac:(lia)).
    pose proof (Z.mul_div_le (now - t) 60000 ltac:(lia)).
    pose proof (Z.mul_succ_div_gt (now - t) 60000 ltac:(lia)).
    rewrite Ge, Lt by lia. repeat split; lia.
  - intros t -> B. unfold formatDate_relative. cbn zeta.
    exists ((now - t) / 3600000)%Z.
    pose proof (Z.div_le_lower_bound (now - t) 60000 60 ltac:(lia) ltac:(lia)).
    pose proof (Z.div_le_lower_bound (now - t) 3600000 1 ltac:(lia) ltac:(lia)).
    pose proof (Z.div_lt_upper_bound (now - t) 3600000 24 ltac:(lia) ltac:(lia)).
    pose proof (Z.mul_div_le (now - t) 3600000 ltac:(lia)).
    pose proof (Z.mul_succ_div_gt (now - t) 3600000 ltac:(lia)).
    rewrite (Ge _ 1%Z), (Ge _ 60%Z), Lt by lia. repeat split; lia.
  - intros t -> B. unfold formatDate_relative. cbn zeta.
    exists ((now - t) / 86400000)%Z.
    pose proof (Z.div_le_lower_bound (now - t) 60000 60 ltac:(lia) ltac:(lia)).
    pose proof (Z.div_le_lower_bound (now - t) 3600000 24 ltac:(lia) ltac:(lia)).
    pose proof (Z.div_le_lower_bound (now - t) 86400000 1 ltac:(lia) ltac:(lia)).
    pose proof (Z.div_lt_upper_bound (now - t) 86400000 7 ltac:(lia) ltac:(lia)).
    pose proof (Z.mul_div_le (now - t) 86400000 ltac:(lia)).
    pose proof (Z.mul_succ_div_gt (now - t) 86400000 ltac:(lia)).
    rewrite (Ge _ 1%Z), (Ge _ 60%Z), (Ge _ 24%Z), Lt by lia.
    repeat split; lia.
  - intros t -> B. unfold formatDate_relative. cbn zeta.
    pose proof (Z.div_le_lower_bound (now - t) 60000 60 ltac:(lia) ltac:(lia)).
    pose proof (Z.div_le_lower_bound (now - t) 3600000 24 ltac:(lia) ltac:(lia)).
    pose proof (Z.div_le_lower_bound (now - t) 86400000 7 ltac:(lia) ltac:(lia)).
    rewrite (Ge _ 1%Z), (Ge _ 60%Z), (Ge _ 24%Z), (Ge _ 7%Z) by lia.
    reflexivity.
  - intros ->. reflexivity.
Qed.

End HomeBadges.

Section HomeNotifications.
Context {host : Host}.

Import HomeScreen.

Lemma mapM_normal {A B : Type} (f : A -> completion B) (g : A -> B)
    (l : list A) :
  (forall x, In x l -> f x = Normal (g x)) ->
  mapM f l = Normal (map g l).
Proof.
  induction l as [|x l IH]; intro F; [reflexivity |].
  cbn [mapM bind completion_monad ret map].
  rewrite (F x (or_introl eq_refl)), IH by (intros y Y; apply F; right; exact Y).
  reflexivity.
Qed.

Lemma mapM_Forall {A B : Type} (f : A -> completion B) (P : B -> Prop)
    (l : list A) (r : list B) :
  (forall x y, f x = Normal y -> P y) ->
  mapM f l = Normal r ->
  Forall P r /\ List.length r = List.length l.
Proof.
  intro F. revert r. induction l as [|x l IH]; intros r E.
  - injection E as <-. auto.
  - cbn [mapM bind completion_monad ret] in E.
    destruct (f x) as [y |] eqn:Fx; [| discriminate].
    destruct (mapM f l) as [ys |]; [| discriminate].
    injection E as <-. destruct (IH ys eq_refl) as [Ps L].
    split; [constructor; eauto | cbn; lia].
Qed.

Lemma completedNotification_fresh (doc : JsVal) (n : NotificationItem) :
  completedNotification doc = Normal n -> fresh_notice n.
Proof.
  unfold completedNotification. cbn [bind completion_monad ret].
  destruct (get_prop doc (js "document_id")) as [i |]; [| discriminate].
  destruct (ToString i); [| discriminate].
  destruct (get_prop doc (js "filename")) as [f |]; [| discriminate].
  destruct (ToString f); [| discriminate].
  destruct (get_prop doc (js "created_at")); [| discriminate].
  intro E. injection E as <-. repeat split.
Qed.

Lemma filter_info_fresh (fresh prev : list NotificationItem) :
  Forall fresh_notice fresh ->
  filter is_info (fresh ++ filter is_info prev) = filter is_info prev.
Proof.
  intro F. rewrite filter_app.
  replace (filter is_info fresh) with (@nil NotificationItem).
  - cbn [app]. induction prev as [|n prev IH]; [reflexivity |].
    cbn [filter]. destruct (is_info n) eqn:I; [| exact IH].
    cbn [filter]. rewrite I, IH. reflexivity.
  - induction F as [|n l (T & _) _ IH]; [reflexivity |].
    cbn [filter]. unfold is_info at 1. rewrite T. exact IH.
Qed.

(** What a run of [fetchDocuments] can do to the notifications. *)
Lemma fetchDocuments_notifications (o : Outcome) (s : State) :
  exists s',
    fetchDocuments o s = (s', Normal tt)
    /\ loading s' = false /\ refreshing s' = false
    /\ (notifications s' = notifications s
        \/ exists fresh,
             notifications s' = fresh ++ filter is_info (notifications s)
             /\ (1 <= List.length fresh <= 3)%nat
             /\ Forall fresh_notice fresh).
Proof.
  unfold fetchDocuments, try_finally, try_catch, lift.
  unfold setDocuments, setLoading, setRefreshing, setNotifications, update.
  cbn [bind eff_monad].
  destruct (await o) as [data |];
    [| eexists; repeat split; left; reflexivity].
  destruct (listedDocuments data) as [docs |];
    [| eexists; repeat split; left; reflexivity].
  destruct (get_prop docs (js "length")) as [len |];
    [| eexists; repeat split; left; reflexivity].
  destruct (gt_zero len) as [[|] |];
    try (eexists; repeat split; left; reflexivity).
  destruct (array_filter docs isCompleted) as [completedDocs |];
    [| eexists; repeat split; left; reflexivity].
  destruct (0 <? List.length completedDocs)%nat eqn:P;
    [| eexists; repeat split; left; reflexivity].
  destruct (mapM completedNotification (firstn 3 completedDocs))
    as [fresh |] eqn:M;
    [| eexists; repeat split; left; reflexivity].
  destruct (@mapM_Forall _ _ completedNotification fresh_notice _ _
              completedNotification_fresh M) as [F L].
  eexists. repeat split. right. exists fresh.
  split; [reflexivity |]. split; [| exact F].
  apply Nat.ltb_lt in P. rewrite L, length_firstn. lia.
Qed.

(** Every run of HomeScreen's fetchDocuments ends normally with the loading
    and refreshing flags cleared. It keeps the notifications of type info,
    in their order, and either leaves the others too or puts in their place
    one to three unread notices of a completed analysis, at the head of the
    list. *)
Theorem fetchDocuments_renews_notices (o : Outcome) (s : State) :
  exists s',
    fetchDocuments o s = (s', Normal tt)
    /\ loading s' = false /\ refreshing s' = false
    /\ filter is_info (notifications s') = filter is_info (notifications s)
    /\ (notifications s' = notifications s
        \/ exists fresh,
             notifications s' = fresh ++ filter is_info (notifications s)
             /\ (1 <= List.length fresh <= 3)%nat
             /\ Forall (fun n => type n = complete /\ read n = false) fresh
             /\ hasUnread s' = true).
Proof.
  destruct (fetchDocuments_notifications o s) as (s' & E & L & R & N).
  exists s'. repeat (split; [assumption |]). split.
  - destruct N as [-> | (fresh & -> & _ & F)]; [reflexivity |].
    apply filter_info_fresh, F.
  - destruct N as [N | (fresh & N & B & F)]; [left; exact N |].
    right. exists fresh. repeat (split; [assumption |]). split.
    + eapply Forall_impl; [| exact F]. intros n (T & U & _). auto.
    + unfold hasUnread. rewrite N.
      destruct F as [| n l (_ & U & _) _]; [cbn in B; lia |].
      cbn [app existsb]. rewrite U. reflexivity.
Qed.

Lemma isCompleted_document (doc : JsVal) :
  is_document doc = true -> isCompleted doc = Normal (completed doc).
Proof.
  destruct doc; try discriminate. intros _.
  unfold isCompleted, completed. cbn [bind completion_monad ret get_prop].
  destruct (strict_eq_str (lookup (js "status") fields) (js "completed"));
    reflexivity.
Qed.

Lemma completedNotification_document (doc : JsVal) :
  is_document doc = true ->
  exists n, completedNotification doc = Normal n.
Proof.
  destruct doc; try discriminate. unfold is_document, completedNotification.
  cbn [bind completion_monad ret get_prop].
  destruct (lookup (js "document_id") fields); try discriminate.
  destruct (lookup (js "filename") fields); try discriminate.
  intros _. cbn [ToString bind completion_monad ret]. eauto.
Qed.

Lemma In_firstn {A : Type} (n : nat) (l : list A) (x : A) :
  In x (firstn n l) -> In x l.
Proof.
  intro I. rewrite <- (firstn_skipn n l). apply in_or_app. left. exact I.
Qed.

Lemma mapM_defined {A B : Type} (f : A -> completion B) (l : list A) :
  (forall x, In x l -> exists y, f x = Normal y) ->
  exists r, mapM f l = Normal r.
Proof.
  induction l as [|x l IH]; intro F; [eexists; reflexivity |].
  destruct (F x (or_introl eq_refl)) as [y Fx].
  destruct IH as [ys Fl]; [intros z Z; apply F; right; exact Z |].
  cbn [mapM bind completion_monad ret]. rewrite Fx, Fl. eauto.
Qed.

(** A listing of well-formed documents with a completed one among them
    brings its notices back unread, whatever was read before: after the
    reload the list starts with one notice per completed document, three at
    most, the bell shows unread notifications, and the documents are
    stored. *)
Theorem reload_brings_notices_back_unread
    (data : JsVal) (items : list JsVal) (s : State) :
  get_prop data (js "documents") = Normal (JArr items) ->
  forallb is_document items = true ->
  existsb completed items = true ->
  exists s' fresh,
    fetchDocuments (Resolved data) s = (s', Normal tt)
    /\ documents s' = JArr items
    /\ notifications s' = fresh ++ filter is_info (notifications s)
    /\ List.length fresh = Nat.min 3 (List.length (filter completed items))
    /\ Forall (fun n => type n = complete /\ read n = false) fresh
    /\ hasUnread s' = true.
Proof.
  intros D W C.
  rewrite forallb_forall in W.
  assert (Items : items <> []) by (destruct items; [discriminate C | discriminate]).
  assert (Filtered : array_filter (JArr items) isCompleted
                     = Normal (filter completed items)).
  { apply filterM_normal. intros doc I. apply isCompleted_document, W, I. }
  assert (Some_completed : (0 <? List.length (filter completed items))%nat = true).
  { apply Nat.ltb_lt. apply existsb_exists in C. destruct C as (doc & I & K).
    assert (In doc (filter completed items)) by (apply filter_In; auto).
    destruct (filter completed items); [contradiction | cbn; lia]. }
  destruct (@mapM_defined _ _ completedNotification
              (firstn 3 (filter completed items))) as [fresh M].
  { intros doc I. apply completedNotification_document, W.
    apply In_firstn in I. apply filter_In in I. tauto. }
  destruct (@mapM_Forall _ _ completedNotification fresh_notice _ _
              completedNotification_fresh M) as [F L].
  unfold fetchDocuments, try_finally, try_catch, lift, listedDocuments.
  unfold setDocuments, setLoading, setRefreshing, setNotifications, update.
  cbn [bind eff_monad completion_monad await ret]. rewrite D.
  cbn [truthy get_prop].
  replace (JsString.eqb (js "length") (js "length")) with true by reflexivity.
  replace (gt_zero (JNum (Z.of_nat (List.length items)))) with (Normal true).
  2: { destruct items; [congruence | reflexivity]. }
  rewrite Filtered, Some_completed, M.
  eexists _, fresh. split; [reflexivity |]. cbn.
  split; [reflexivity |]. split; [reflexivity |].
  split; [rewrite L, length_firstn; reflexivity |]. split.
  - eapply Forall_impl; [| exact F]. intros n (T & U & _). auto.
  - assert (Pos : (1 <= List.length fresh)%nat).
    { rewrite L, length_firstn. apply Nat.ltb_lt in Some_completed. lia. }
    unfold hasUnread. cbn [notifications].
    destruct F as [| n l (_ & U & _) _]; [cbn in Pos; lia |].
    cbn [app existsb]. rewrite U. reflexivity.
Qed.

End HomeNotifications.

Section HomeHandlers.
Context {host : Host}.

Import HomeScreen.

(** A press on a notification closes the modal and marks as read the
    notifications with the id pressed, and no other; nothing else of a
    notification changes, none is added or removed, and none goes back to
    unread. It leads to the documents tab for a notice of a completed
    analysis only. *)
Theorem pressing_marks_read
    (pressed : jsstring) (pressed_type : NotificationType) (s : State) :
  exists s',
    handleNotificationItemPress pressed pressed_type s
    = (s', Normal (match pressed_type with
                   | complete => Some Documents
                   | _ => None
                   end))
    /\ isNotiModalVisible s' = false
    /\ documents s' = documents s
    /\ Forall2 (fun before after =>
                  id after = id before /\ type after = type before
                  /\ title after = title before
                  /\ message after = message before
                  /\ date after = date before
                  /\ read after
                     = (read before || JsString.eqb (id before) pressed))
               (notifications s) (notifications s').
Proof.
  eexists. split; [reflexivity |]. cbn.
  split; [reflexivity |]. split; [reflexivity |].
  induction (notifications s) as [|n l IH]; cbn [map]; constructor; auto.
  destruct (JsString.eqb (id n) pressed); cbn;
    rewrite ?orb_true_r, ?orb_false_r; repeat split.
Qed.

Lemma press_each (pressed : list NotificationItem) (s : State) :
  notifications
    (fold_left (fun st n =>
                  fst (handleNotificationItemPress (id n) (type n) st))
               pressed s)
  = map (pressed_among pressed) (notifications s).
Proof.
  revert s. induction pressed as [|p pressed IH]; intro s.
  - cbn. symmetry. apply map_id.
  - cbn [fold_left]. rewrite IH. cbn. rewrite map_map.
    apply map_ext. intro n. unfold pressed_among. cbn [existsb].
    destruct (JsString.eqb (id n) (id p)); cbn [orb id markRead];
      [| reflexivity].
    destruct (existsb _ pressed); reflexivity.
Qed.

(** Once each notification of the list has been pressed, none is unread and
    the bell shows no dot, until the next reload. *)
Theorem pressing_all_clears_the_bell (s : State) :
  let s' :=
    fold_left (fun st n =>
                 fst (handleNotificationItemPress (id n) (type n) st))
              (notifications s) s in
  hasUnread s' = false
  /\ map id (notifications s') = map id (notifications s).
Proof.
  cbn zeta. unfold hasUnread. rewrite press_each. split.
  - destruct (existsb _ (map _ (notifications s))) eqn:E; [| reflexivity].
    apply existsb_exists in E. destruct E as (n' & I & U).
    apply in_map_iff in I. destruct I as (n & <- & I).
    unfold pressed_among in U.
    replace (existsb (fun p => JsString.eqb (id n) (id p)) (notifications s))
      with true in U; [discriminate U |].
    symmetry. apply existsb_exists. exists n.
    split; [exact I | apply eqb_refl].
  - rewrite map_map. apply map_ext. intro n. unfold pressed_among.
    destruct (existsb _ (notifications s)); reflexivity.
Qed.

Lemma strict_eq_str_true (v : JsVal) (t : jsstring) :
  strict_eq_str v t = true -> v = JStr t.
Proof.
  destruct v; try discriminate. cbn. intro E.
  apply jsstring_eqb_eq in E. congruence.
Qed.

(** A press on the main card opens the documents tab, and hides the card,
    only when the status of the latest document is '분석완료' or
    'completed'; otherwise it does nothing. The card announces a completed
    analysis for every status but '분석중' and 'analyzing': for an
    'uploaded' or an 'analyzed' document it does so while a press does
    nothing. *)
Theorem main_card_press (latestDoc : JsVal) (s : State) :
  exists route s',
    handleMainCardPress latestDoc s = (s', Normal route)
    /\ (route = None -> s' = s)
    /\ (route <> None ->
        route = Some Documents
        /\ showMainNotification s' = false
        /\ documents s' = documents s
        /\ notifications s' = notifications s
        /\ exists status,
             get_prop latestDoc (js "status") = Normal status
             /\ (status = JStr (js "분석완료") \/ status = JStr (js "completed"))
             /\ mainCardTitle status = js "✅ 분석 완료")
    /\ (forall status,
          truthy latestDoc = true ->
          get_prop latestDoc (js "status") = Normal status ->
          status <> JStr (js "분석완료") -> status <> JStr (js "completed") ->
          status <> JStr (js "분석중") -> status <> JStr (js "analyzing") ->
          route = None /\ mainCardTitle status = js "✅ 분석 완료").
Proof.
  unfold handleMainCardPress.
  destruct (truthy latestDoc) eqn:T.
  2: { exists None, s. split; [reflexivity |]. split; [reflexivity |].
       split; [congruence |]. discriminate. }
  assert (exists status, get_prop latestDoc (js "status") = Normal status)
    as [status St].
  { destruct latestDoc; try discriminate T; cbn [get_prop]; eauto. }
  unfold lift, setShowMainNotification, update.
  cbn [bind eff_monad]. rewrite St.
  destruct (strict_eq_str status (js "분석완료")) eqn:E1;
    [| cbn [bind eff_monad ret];
       destruct (strict_eq_str status (js "completed")) eqn:E2 ].
  - apply strict_eq_str_true in E1. subst status.
    eexists _, _. split; [reflexivity |].
    split; [discriminate |]. split.
    + intros _. repeat (split; [reflexivity |]).
      eexists. split; [reflexivity |]. split; [left; reflexivity |].
      vm_compute. reflexivity.
    + intros status' _ Q N. injection Q as <-. congruence.
  - apply strict_eq_str_true in E2. subst status.
    eexists _, _. split; [reflexivity |].
    split; [discriminate |]. split.
    + intros _. repeat (split; [reflexivity |]).
      eexists. split; [reflexivity |]. split; [right; reflexivity |].
      vm_compute. reflexivity.
    + intros status' _ Q _ N. injection Q as <-. congruence.
  - exists None, s. split; [reflexivity |]. split; [reflexivity |].
    split; [congruence |].
    intros status' _ Q _ _ N3 N4. injection Q as <-.
    split; [reflexivity |]. unfold mainCardTitle.
    destruct (strict_eq_str status (js "분석중")) eqn:E3;
      [apply strict_eq_str_true in E3; congruence |].
    destruct (strict_eq_str status (js "analyzing")) eqn:E4;
      [apply strict_eq_str_true in E4; congruence |].
    reflexivity.
Qed.

End HomeHandlers.

(** ** Loading the list of DocumentListScreen *)

Section DocumentListLoading.
Context {host : Host} {casing : CaseMapping}.

Import DocumentListScreen.

Lemma listedDocuments_truthy (data docs : JsVal) :
  listedDocuments data = Normal docs -> truthy docs = true.
Proof.
  unfold listedDocuments. cbn [bind completion_monad ret].
  destruct (get_prop data (js "documents")) as [d |]; [| discriminate].
  destruct (truthy d) eqn:Td; [intro E; injection E as <-; exact Td |].
  destruct (truthy data) eqn:T; intro E; injection E as <-;
    [exact T | reflexivity].
Qed.

(** Every run of DocumentListScreen's fetchDocuments, also as the pull to
    refresh starts it, ends normally with the loading and refreshing flags
    cleared, so the loading screen is not shown again; the search text and
    the filter stay. The documents are the ones before, or what the body
    gave, which is never a falsy value: reading the length of the list
    cannot fail afterwards. *)
Theorem DocumentList_fetch_settles (o : Outcome) (s : State) :
  exists s',
    fetchDocuments o s = (s', Normal tt)
    /\ onRefresh o s = (s', Normal tt)
    /\ loading s' = false /\ refreshing s' = false
    /\ searchText s' = searchText s /\ selectedFilter s' = selectedFilter s
    /\ showsLoading s' = Normal false
    /\ (documents s' = documents s
        \/ exists data, o = Resolved data
                        /\ listedDocuments data = Normal (documents s'))
    /\ (truthy (documents s) = true ->
        truthy (documents s') = true
        /\ exists len, get_prop (documents s') (js "length") = Normal len).
Proof.
  assert (Len : forall v, truthy v = true ->
                  exists len, get_prop v (js "length") = Normal len).
  { intros v T. destruct v; try discriminate T; cbn [get_prop]; eauto. }
  unfold onRefresh, fetchDocuments, try_finally, try_catch, lift.
  unfold setDocuments, setLoading, setRefreshing, update.
  cbn [bind eff_monad].
  destruct o as [data | error]; cbn [await].
  - destruct (listedDocuments data) as [docs |] eqn:L.
    + eexists. repeat (split; [reflexivity |]). cbn. split.
      * right. exists data. split; [reflexivity | exact L].
      * intros _. pose proof (listedDocuments_truthy _ L) as T. auto.
    + eexists. repeat (split; [reflexivity |]). cbn. split; auto.
  - eexists. repeat (split; [reflexivity |]). cbn. split; auto.
Qed.

End DocumentListLoading.

(** ** DocumentUploadScreen *)

Section Uploading.
Context {host : Host}.

Import DocumentUploadScreen.

Lemma includes_unit (s : jsstring) (c : N) :
  includes s [c] = existsb (fun x => (x =? c)%N) s.
Proof.
  induction s as [|x s IH]; [reflexivity |].
  cbn [includes startsWith existsb]. rewrite IH.
  destruct s; rewrite andb_true_r; reflexivity.
Qed.

Lemma includes_unit_app (a b : jsstring) (c : N) :
  includes (a ++ b) [c] = includes a [c] || includes b [c].
Proof. rewrite !includes_unit. apply existsb_app. Qed.


(** The status line after handleUpload: the cancel text in the normal style
    when the picker is cancelled; '✅ 업로드 성공! 파일: ' and the name of
    the file, in the success style, when the upload succeeds; '❌ 업로드
    실패: ' and the message of the error when it fails, in the error style
    unless the message holds a ✅, which turns it to the success style. *)
Theorem upload_status_line (asset : Asset) (s : State) :
  (let s' := fst (handleUpload_picked (Normal Canceled) s) in
   uploadStatus s' = js "파일 선택이 취소되었습니다."
   /\ statusStyle s' = normalText)
  /\ (forall data,
        let s' := fst (handleUpload_done asset (Resolved data) s) in
        uploadStatus s' = js "✅ 업로드 성공! 파일: " ++ name asset
        /\ statusStyle s' = successText)
  /\ (forall error,
        let s' := fst (handleUpload_done asset (Rejected error) s) in
        uploadStatus s' = js "❌ 업로드 실패: " ++ err_message error
        /\ statusStyle s'
           = if includes (err_message error) (js "✅") then successText
             else errorText).
Proof.
  split; [| split].
  - split; vm_compute; reflexivity.
  - intro data. cbn zeta. split; [reflexivity |].
    unfold statusStyle. cbn [fst handleUpload_done].
    unfold handleUpload_done, try_finally, try_catch, lift,
      setUploadStatus, setIsUploading, update.
    cbn [bind eff_monad await fst uploadStatus ret].
    change (js "✅") with [9989%N].
    rewrite includes_unit_app.
    replace (includes (js "✅ 업로드 성공! 파일: ") [9989%N]) with true
      by (vm_compute; reflexivity).
    reflexivity.
  - intro error. cbn zeta. split; [reflexivity |].
    unfold statusStyle.
    unfold handleUpload_done, uploadFailed, try_finally, try_catch, lift,
      setUploadStatus, setIsUploading, update.
    cbn [bind eff_monad await fst uploadStatus ret].
    change (js "✅") with [9989%N]. change (js "❌") with [10060%N].
    rewrite !includes_unit_app.
    replace (includes (js "❌ 업로드 실패: ") [9989%N]) with false
      by (vm_compute; reflexivity).
    replace (includes (js "❌ 업로드 실패: ") [10060%N]) with true
      by (vm_compute; reflexivity).
    cbn [orb]. reflexivity.
Qed.

End Uploading.

(** * The further properties at sample inputs *)

Lemma messages_append_only_witness :
  (exists added,
      ChatScreen.messages
        (fst (ChatScreen.sendMessage_begin (js "hi") 5 5 (ChatScreen.initial 0)))
      = ChatScreen.messages (ChatScreen.initial 0) ++ added
      /\ (List.length added <= 1)%nat)
  /\ (exists now later,
        ChatScreen.messages
          (fst (ChatScreen.sendMessage_begin (js "hi") 5 5
                  (ChatScreen.initial 0)))
        = ChatScreen.messages (ChatScreen.initial now) ++ later).
Proof.
  split.
  - apply (proj1 (messages_append_only (host := sample_host))).
    apply ChatScreen.step_sendMessage_begin.
  - apply (proj2 (messages_append_only (host := sample_host))).
    apply ChatScreen.reachable_step with (s := ChatScreen.initial 0).
    + apply ChatScreen.reachable_initial.
    + apply ChatScreen.step_sendMessage_begin.
Defined.

Lemma search_finds_matching_messages_witness :
  exists s',
    ChatScreen.searchEffect (host := sample_host) Samples.searching
    = (s', Normal tt)
    /\ ChatScreen.foundIds s' = [ js "1"; js "2"; js "3" ]
    /\ ChatScreen.currentMatchIndex s' = 0%Z.
Proof.
  destruct (search_finds_matching_messages (host := sample_host)
              Samples.searching) as (s' & E & _ & Found & _).
  - repeat constructor; eexists; reflexivity.
  - exists s'. split; [exact E |].
    destruct Found as [Zero _]; [reflexivity |].
    split; [| exact Zero].
    vm_compute in E. injection E as <-. reflexivity.
Defined.

Lemma search_throws_on_non_text_witness :
  ChatScreen.searchEffect (host := sample_host) Samples.chat_with_numeric_answer
  = (Samples.chat_with_numeric_answer,
     Throw (TypeError (host := sample_host) (NotAFunction (js "includes")))).
Proof.
  apply (search_throws_on_non_text (host := sample_host)
           Samples.chat_with_numeric_answer
           {| ChatScreen.id := js "4"; ChatScreen.text := JNum 42;
              ChatScreen.isUser := false; ChatScreen.timestamp := 3 |}).
  - reflexivity.
  - vm_compute. right. right. right. left. reflexivity.
  - discriminate.
  - discriminate.
Defined.

Lemma current_match_is_a_match_witness :
  ChatScreen.isMatch Samples.searching
    {| ChatScreen.id := js "3"; ChatScreen.text := JStr (js "ba");
       ChatScreen.isUser := false; ChatScreen.timestamp := 2 |}
  = true.
Proof.
  apply current_match_is_a_match. reflexivity.
Defined.


Lemma typing_ends_with_first_reply_witness :
  ChatScreen.isTyping
    (fst (ChatScreen.sendMessage_resume (host := sample_host)
            (Resolved Samples.answer_body) 3 3
            (fst (ChatScreen.sendMessage_begin (js "b") 2 2
                    (fst (ChatScreen.sendMessage_begin (js "a") 1 1
                            (ChatScreen.initial 0)))))))
  = false.
Proof.
  apply (typing_ends_with_first_reply (host := sample_host)
           (js "a") (js "b") 1 1 2 2 3 3 (Resolved Samples.answer_body)
           (ChatScreen.initial 0)); reflexivity.
Defined.

Lemma chat_request_names_latest_document_witness :
  snd (ChatScreen.sendMessage_begin (js "hi") 3 3
         (fst (ChatScreen.fetchLatestDocument (host := sample_host)
                 (Resolved Samples.wrapped_listing) 1 1
                 (ChatScreen.initial 0))))
  = Normal (Some (ChatScreen.sendMessageToBackend_request (JStr (js "d1"))
                                                          (js "hi"))).
Proof.
  destruct (proj1 (chat_request_names_latest_document (host := sample_host)
                     (js "hi") 1 1 3 3 (ChatScreen.initial 0) eq_refl)
                  Samples.wrapped_listing Samples.report [])
    as (document_id & Ei & E).
  - reflexivity.
  - discriminate.
  - discriminate.
  - rewrite E. vm_compute in Ei. injection Ei as <-. reflexivity.
Defined.


Lemma formatTime_two_digits_witness :
  ChatScreen.formatTime 9 5 = js "09:05".
Proof.
  rewrite (@formatTime_two_digits 9%Z 5%Z); [reflexivity | lia | lia].
Defined.

Lemma card_controls_agree_witness :
  DocumentListScreen.cardPress (JStr (js "uploaded"))
  = DocumentListScreen.StartAnalysis
  /\ DocumentListScreen.statusText (JStr (js "uploaded")) = js "업로드 완료".
Proof.
  pose proof (card_controls_agree (JStr (js "uploaded")))
    as ([Shown _] & Label & _).
  assert (P : DocumentListScreen.cardPress (JStr (js "uploaded"))
              = DocumentListScreen.StartAnalysis) by (apply Shown; reflexivity).
  split; [exact P | exact (Label P)].
Defined.

Lemma listed_documents_have_a_filename_witness :
  In Samples.draft [Samples.report; Samples.draft]
  /\ exists name,
       get_prop (host := sample_host) Samples.draft (js "filename")
       = Normal (JStr name)
       /\ includes (toLowerCase (CaseMapping := sample_casing) name)
                   (toLowerCase (CaseMapping := sample_casing) (js "DRAFT"))
          = true.
Proof.
  apply (proj1 (@listed_documents_have_a_filename
                  sample_host sample_casing
                  Samples.listing [Samples.report; Samples.draft] eq_refl)
               [Samples.draft]).
  - vm_compute. reflexivity.
  - left. reflexivity.
Defined.

Lemma status_filters_partition_witness :
  exists done analyzing uploaded,
    DocumentListScreen.getFilteredDocuments
      (host := sample_host) (casing := sample_casing)
      (fst (DocumentListScreen.setSelectedFilter (js "분석 완료")
              (fst (DocumentListScreen.setSearchText [] Samples.listing))))
    = Normal done
    /\ DocumentListScreen.getFilteredDocuments
         (host := sample_host) (casing := sample_casing)
         (fst (DocumentListScreen.setSelectedFilter (js "분석 중")
                 (fst (DocumentListScreen.setSearchText [] Samples.listing))))
       = Normal analyzing
    /\ DocumentListScreen.getFilteredDocuments
         (host := sample_host) (casing := sample_casing)
         (fst (DocumentListScreen.setSelectedFilter (js "업로드 완료")
                 (fst (DocumentListScreen.setSearchText [] Samples.listing))))
       = Normal uploaded
    /\ List.length [Samples.report; Samples.draft]
       = (List.length done + List.length analyzing + List.length uploaded)%nat
    /\ forall doc, In doc [Samples.report; Samples.draft] <->
                   In doc done \/ In doc analyzing \/ In doc uploaded.
Proof.
  apply (status_filters_partition (host := sample_host)
           (casing := sample_casing)
           (fst (DocumentListScreen.setSearchText [] Samples.listing))).
  vm_compute. reflexivity.
Defined.

Lemma object_body_breaks_the_list_witness :
  DocumentListScreen.getFilteredDocuments
    (host := sample_host) (casing := sample_casing)
    (fst (DocumentListScreen.fetchDocuments (host := sample_host)
            (Resolved (JObj [ (js "detail", JStr (js "Not Found")) ]))
            DocumentListScreen.initial))
  = Throw (TypeError (host := sample_host) (NotAFunction (js "filter"))).
Proof.
  apply (object_body_breaks_the_list (host := sample_host)
           (casing := sample_casing)
           [ (js "detail", JStr (js "Not Found")) ]
           DocumentListScreen.initial HomeScreen.initial).
  reflexivity.
Defined.

Lemma analysis_ends_in_one_dialog_witness :
  exists alert,
    DocumentListScreen.analyzeDocument_confirmed (host := sample_host)
      (Rejected Samples.timeout_error) = Normal alert
    /\ alert_title alert = js "분석 실패"
    /\ alert_message alert
       = js "분석 중 오류가 발생했습니다: " ++ js "timeout of 30000ms exceeded".
Proof.
  destruct (analysis_ends_in_one_dialog (host := sample_host)
              (Rejected Samples.timeout_error)) as (alert & E & _ & Failed & _).
  exists alert. split; [exact E |].
  rewrite (Failed Samples.timeout_error eq_refl). split; reflexivity.
Defined.

Lemma DocumentList_fetch_settles_witness :
  exists s',
    DocumentListScreen.fetchDocuments (host := sample_host)
      (Rejected Samples.network_error) Samples.listing = (s', Normal tt)
    /\ truthy (DocumentListScreen.documents s') = true.
Proof.
  destruct (DocumentList_fetch_settles (host := sample_host)
              (Rejected Samples.network_error) Samples.listing)
    as (s' & E & _ & _ & _ & _ & _ & _ & _ & T).
  exists s'. split; [exact E |]. apply T. reflexivity.
Defined.

Lemma formatDate_relative_ranges_witness :
  HomeScreen.formatDate_relative 1700000300000 (Some 1700000000000%Z)
  = Some (js "5분 전")
  /\ HomeScreen.formatDate_relative 1700000000000 (Some 1700000300000%Z)
     = Some (js "방금 전").
Proof.
  split.
  - destruct (proj1 (proj2 (formatDate_relative_ranges
                              1700000300000%Z (Some 1700000000000%Z)))
                    1700000000000%Z eq_refl) as (minutes & E & _ & B).
    + lia.
    + rewrite E. replace minutes with 5%Z by lia. reflexivity.
  - apply (proj1 (formatDate_relative_ranges
                    1700000000000%Z (Some 1700000300000%Z))
                 1700000300000%Z eq_refl).
    lia.
Defined.

Lemma reload_brings_notices_back_unread_witness :
  exists s' fresh,
    HomeScreen.fetchDocuments (host := sample_host)
      (Resolved Samples.wrapped_listing) HomeScreen.initial = (s', Normal tt)
    /\ HomeScreen.notifications s'
       = fresh ++ HomeScreen.notifications HomeScreen.initial
    /\ List.length fresh = 1%nat
    /\ HomeScreen.hasUnread s' = true.
Proof.
  destruct (@reload_brings_notices_back_unread sample_host
              Samples.wrapped_listing [Samples.report] HomeScreen.initial)
    as (s' & fresh & E & _ & N & L & _ & U).
  - reflexivity.
  - reflexivity.
  - reflexivity.
  - exists s', fresh. split; [exact E |]. split; [exact N |].
    split; [exact L | exact U].
Defined.

Lemma main_card_press_witness :
  exists route s',
    HomeScreen.handleMainCardPress (host := sample_host) Samples.draft
      HomeScreen.initial = (s', Normal route)
    /\ route = None
    /\ HomeScreen.mainCardTitle (JStr (js "uploaded")) = js "✅ 분석 완료".
Proof.
  destruct (main_card_press (host := sample_host) Samples.draft
              HomeScreen.initial) as (route & s' & E & _ & _ & Other).
  exists route, s'. split; [exact E |].
  apply (Other (JStr (js "uploaded"))); try reflexivity;
    intro Q; vm_compute in Q; discriminate Q.
Defined.
